(** * A URL shortener with expiry and click statistics

    Shallow embedding of [main.py] (and of its twin under
    [Backend text submition/], whose three handlers are the same code
    with logging added): a process-wide dictionary [urls] from
    shortcode to link record, and the handlers [create_short_url],
    [redirect_url] and [stats].

    Python strings are modelled by their UTF-8 byte strings, the [int]
    of the request model by [Z], a naive [datetime] by its number of
    microseconds since 0001-01-01T00:00:00, the dictionary by a [gmap]
    and each Python list by a [list]. *)

From Stdlib Require Import ZArith Lia Ascii String List Bool.
From stdpp Require Import base option list strings gmap.

Local Open Scope Z_scope.

(** ** The pieces of the Python library the handlers call *)

(** *** [datetime] and [timedelta] *)

Module datetime.

(** A naive [datetime]: microseconds since 0001-01-01T00:00:00.  The
    order of [Z] on this representation is the order Python gives to
    naive datetimes. *)
Definition t : Type := Z.

Definition US_PER_SECOND : Z := 1000000.
Definition US_PER_MINUTE : Z := 60 * US_PER_SECOND.
Definition US_PER_HOUR : Z := 60 * US_PER_MINUTE.
Definition US_PER_DAY : Z := 24 * US_PER_HOUR.

(** [date.max.toordinal()], the ordinal of 9999-12-31. *)
Definition MAXORDINAL : Z := 3652059.

(** The values a [datetime] object can hold:
    0001-01-01T00:00:00 up to 9999-12-31T23:59:59.999999. *)
Definition valid (d : t) : Prop := 0 <= d < MAXORDINAL * US_PER_DAY.

Definition validb (d : t) : bool :=
  (0 <=? d) && (d <? MAXORDINAL * US_PER_DAY).

(** A [timedelta], in microseconds. *)
Definition timedelta : Type := Z.

(** [timedelta]'s limit on the magnitude of its normalised [days]. *)
Definition MAX_DELTA_DAYS : Z := 999999999.

(** [timedelta(minutes=m)]: [None] stands for the [OverflowError] the
    constructor raises when the normalised number of days is out of
    range. *)
Definition timedelta_minutes (m : Z) : option timedelta :=
  let us := m * US_PER_MINUTE in
  let days := us / US_PER_DAY in
  if (- MAX_DELTA_DAYS <=? days) && (days <=? MAX_DELTA_DAYS)
  then Some us else None.

(** [d + delta]: [None] stands for the [OverflowError] ("date value out
    of range") raised when the sum leaves years 1 to 9999. *)
Definition add (d : t) (delta : timedelta) : option t :=
  let r := d + delta in
  if validb r then Some r else None.

(** [a > b] on naive datetimes. *)
Definition gt (a b : t) : bool := b <? a.

(** **** The calendar: from a day ordinal to year, month, day *)

Definition is_leap (year : Z) : bool :=
  (year mod 4 =? 0) && (negb (year mod 100 =? 0) || (year mod 400 =? 0)).

Definition DAYS_IN_MONTH (month : Z) : Z :=
  match month with
  | 1 => 31 | 2 => 28 | 3 => 31 | 4 => 30 | 5 => 31 | 6 => 30
  | 7 => 31 | 8 => 31 | 9 => 30 | 10 => 31 | 11 => 30 | 12 => 31
  | _ => -1
  end.

Definition DAYS_BEFORE_MONTH (month : Z) : Z :=
  match month with
  | 1 => 0 | 2 => 31 | 3 => 59 | 4 => 90 | 5 => 120 | 6 => 151
  | 7 => 181 | 8 => 212 | 9 => 243 | 10 => 273 | 11 => 304 | 12 => 334
  | _ => -1
  end.

Definition DI400Y : Z := 146097.
Definition DI100Y : Z := 36524.
Definition DI4Y : Z := 1461.

Definition Z_of_bool (b : bool) : Z := if b then 1 else 0.

(** [_ord2ymd]: ordinal (0001-01-01 is day 1) to (year, month, day). *)
Definition ord2ymd (ordinal : Z) : Z * Z * Z :=
  let n := ordinal - 1 in
  let n400 := n / DI400Y in
  let n := n mod DI400Y in
  let year := n400 * 400 + 1 in
  let n100 := n / DI100Y in
  let n := n mod DI100Y in
  let n4 := n / DI4Y in
  let n := n mod DI4Y in
  let n1 := n / 365 in
  let n := n mod 365 in
  let year := year + n100 * 100 + n4 * 4 + n1 in
  if (n1 =? 4) || (n100 =? 4) then (year - 1, 12, 31)
  else
    let leapyear := (n1 =? 3) && (negb (n4 =? 24) || (n100 =? 3)) in
    let month := Z.shiftr (n + 50) 5 in
    let preceding :=
      DAYS_BEFORE_MONTH month + Z_of_bool ((2 <? month) && leapyear) in
    let '(month, preceding) :=
      if n <? preceding
      then (month - 1,
            preceding
            - (DAYS_IN_MONTH (month - 1)
               + Z_of_bool ((month - 1 =? 2) && leapyear)))
      else (month, preceding) in
    (year, month, n - preceding + 1).

(** The fields of a datetime. *)
Record fields : Type := mkFields {
  year : Z; month : Z; day : Z;
  hour : Z; minute : Z; second : Z; microsecond : Z
}.

Definition to_fields (d : t) : fields :=
  let '(y, m, dd) := ord2ymd (d / US_PER_DAY + 1) in
  let r := d mod US_PER_DAY in
  {| year := y; month := m; day := dd;
     hour := r / US_PER_HOUR;
     minute := (r mod US_PER_HOUR) / US_PER_MINUTE;
     second := (r mod US_PER_MINUTE) / US_PER_SECOND;
     microsecond := r mod US_PER_SECOND |}.

(** **** Decimal formatting, ["%0wd"] on a non-negative integer *)

Definition digit_char (d : Z) : ascii := ascii_of_nat (48 + Z.to_nat d).

Fixpoint decimal_aux (fuel : nat) (n : Z) (acc : string) : string :=
  match fuel with
  | O => acc
  | S fuel' =>
      let acc' := String (digit_char (n mod 10)) acc in
      if n <? 10 then acc' else decimal_aux fuel' (n / 10) acc'
  end.

(** The decimal numeral of [n >= 0]; a number has at most
    [1 + log2 n] decimal digits. *)
Definition decimal (n : Z) : string :=
  decimal_aux (S (Z.to_nat (Z.log2 n))) n EmptyString.

Fixpoint zeros (k : nat) (s : string) : string :=
  match k with
  | O => s
  | S k' => String "0"%char (zeros k' s)
  end.

(** [s.zfill(width)] for a string of digits. *)
Definition zfill (width : nat) (s : string) : string :=
  zeros (width - String.length s)%nat s.

Definition fmt_0d (width : nat) (n : Z) : string :=
  zfill width (decimal n).

(** **** [isoformat()] with its default separator and ['auto'] time
    specification: the fraction is printed only when it is not zero. *)
Definition isoformat (d : t) : string :=
  let f := to_fields d in
  fmt_0d 4 (year f) +:+ "-" +:+ fmt_0d 2 (month f) +:+ "-"
    +:+ fmt_0d 2 (day f) +:+ "T"
    +:+ fmt_0d 2 (hour f) +:+ ":" +:+ fmt_0d 2 (minute f) +:+ ":"
    +:+ fmt_0d 2 (second f)
    +:+ (if microsecond f =? 0 then EmptyString
         else "." +:+ fmt_0d 6 (microsecond f)).

(** **** Recognising the extended ISO-8601 form
    [YYYY-MM-DDTHH:MM:SS] with an optional [.ffffff] *)

Definition is_digit (c : ascii) : bool :=
  let n := nat_of_ascii c in (48 <=? n)%nat && (n <=? 57)%nat.

(** The number a string of decimal digits denotes. *)
Fixpoint digits_value_aux (s : string) (v : Z) : Z :=
  match s with
  | EmptyString => v
  | String c s' =>
      digits_value_aux s' (10 * v + (Z.of_nat (nat_of_ascii c) - 48))
  end.

Definition digits_value (s : string) : Z := digits_value_aux s 0.


Fixpoint take_digits (k : nat) (s : string) : option string :=
  match k with
  | O => Some s
  | S k' =>
      match s with
      | String c s' => if is_digit c then take_digits k' s' else None
      | EmptyString => None
      end
  end.

Definition expect (c : ascii) (s : string) : option string :=
  match s with
  | String c' s' => if Ascii.eqb c c' then Some s' else None
  | EmptyString => None
  end.

Definition is_iso8601 (s : string) : bool :=
  match
    s ← take_digits 4 s; s ← expect "-" s;
    s ← take_digits 2 s; s ← expect "-" s;
    s ← take_digits 2 s; s ← expect "T" s;
    s ← take_digits 2 s; s ← expect ":" s;
    s ← take_digits 2 s; s ← expect ":" s;
    take_digits 2 s
  with
  | Some EmptyString => true
  | Some rest =>
      match s ← expect "." rest; take_digits 6 s with
      | Some EmptyString => true
      | _ => false
      end
  | None => false
  end.

End datetime.

(** *** [random.choices] and the [string] constants *)

Module random.

(** The generator is abstracted to the sequence of numbers it will
    yield; [pos] counts the calls to [random()] made so far. *)
Record state : Type := mkState { draws : nat → nat; pos : nat }.

(** [floor(random() * n)] for [n > 0], some index below [n]. *)
Definition index_below (n : nat) (g : state) : nat * state :=
  ((draws g (pos g) mod n)%nat, {| draws := draws g; pos := S (pos g) |}).

(** [choices(population, k=k)]:
    [[population[floor(random() * n)] for i in _repeat(None, k)]]. *)
Fixpoint choices (population : list ascii) (k : nat) (g : state)
  : list ascii * state :=
  match k with
  | O => ([], g)
  | S k' =>
      let '(i, g1) := index_below (length population) g in
      let '(cs, g2) := choices population k' g1 in
      (nth i population "000"%char :: cs, g2)
  end.

End random.

Module pystring.
Definition ascii_lowercase : string := "abcdefghijklmnopqrstuvwxyz".
Definition ascii_uppercase : string := "ABCDEFGHIJKLMNOPQRSTUVWXYZ".
Definition ascii_letters : string := ascii_lowercase +:+ ascii_uppercase.
Definition digits : string := "0123456789".

(** [''.join(cs)] for a list of one-character strings. *)
Definition join (cs : list ascii) : string := string_of_list_ascii cs.

(** [s.rstrip(c)]: drop every trailing occurrence of [c]. *)
Fixpoint rstrip (c : ascii) (s : string) : string :=
  match s with
  | EmptyString => EmptyString
  | String a s' =>
      match rstrip c s' with
      | EmptyString => if Ascii.eqb a c then EmptyString else String a EmptyString
      | r => String a r
      end
  end.
End pystring.

(** ** The data of the service *)

(** One element of an entry's ["clicks"] list. *)
Module Click.
Record t : Type := mk { timestamp : string; referrer : string; ip : string }.
End Click.

(** The dictionary stored under a shortcode. *)
Module Entry.
Record t : Type := mk {
  url : string;
  expiry : datetime.t;
  clicks : list Click.t
}.
End Entry.

(** [class UrlRequest(BaseModel)], after validation. *)
Module UrlRequest.
Record t : Type := mk {
  url : string;
  validity : Z;
  shortcode : option string
}.

(** The JSON body as sent: [validity] and [shortcode] may be left
    out, and then take the defaults the class declares. *)
Record body : Type := mkBody {
  body_url : string;
  body_validity : option Z;
  body_shortcode : option string
}.

Definition of_body (b : body) : t :=
  {| url := body_url b;
     validity := default 30 (body_validity b);
     shortcode := body_shortcode b |}.
End UrlRequest.

(** [class UrlResponse(BaseModel)]. *)
Module UrlResponse.
Record t : Type := mk { shortLink : string; expiry : string }.
End UrlResponse.

(** What the handlers read of the incoming [Request]: the base URL,
    the header list (names in lower case, as the server hands them
    over) and the host of the client address, which a server listening
    on a TCP socket, as [uvicorn.run] starts it here, always supplies. *)
Module Request.
Record t : Type := mk {
  base_url : string;
  headers : list (string * string);
  client_host : string
}.

(** [request.headers.get(key, default)]: the value of the first
    header named [key]. *)
Fixpoint headers_get (hs : list (string * string)) (key dflt : string)
  : string :=
  match hs with
  | [] => dflt
  | (k, v) :: hs' => if String.eqb k key then v else headers_get hs' key dflt
  end.
End Request.

(** The dictionary [redirect_url] returns. *)
Module RedirectResponse.
Record t : Type := mk { redirect_to : string }.
End RedirectResponse.

(** The dictionary [stats] returns. *)
Module StatsResponse.
Record t : Type := mk {
  url : string;
  expiry : string;
  total_clicks : nat;
  click_data : list Click.t
}.
End StatsResponse.

(** ** The process state and the monad of the handlers *)

(** The module-level dictionary [urls] and the state of [random]. *)
Record World : Type := mkWorld {
  urls : gmap string Entry.t;
  rng : random.state
}.

(** [urls = {}] at start-up, whatever the generator will yield. *)
Definition initial (g : random.state) : World := {| urls := ∅; rng := g |}.

Inductive exn : Type :=
| HTTPException (status_code : Z) (detail : string)
| OverflowError.

Inductive outcome (A : Type) : Type :=
| Returned (a : A)
| Raised (e : exn).
Arguments Returned {A} a.
Arguments Raised {A} e.

(** A handler runs on the world and either returns or raises; what it
    wrote before raising stays written. *)
Definition M (A : Type) : Type := World → outcome A * World.

#[global] Instance M_ret : MRet M := λ A a w, (Returned a, w).
#[global] Instance M_bind : MBind M := λ A B f m w,
  match m w with
  | (Returned a, w') => f a w'
  | (Raised e, w') => (Raised e, w')
  end.

Definition raise {A : Type} (e : exn) : M A := λ w, (Raised e, w).
Definition get_urls : M (gmap string Entry.t) := λ w, (Returned (urls w), w).
Definition put_urls (u : gmap string Entry.t) : M unit :=
  λ w, (Returned tt, {| urls := u; rng := rng w |}).
Definition with_rng {A : Type} (f : random.state → A * random.state) : M A :=
  λ w, let '(a, g) := f (rng w) in
       (Returned a, {| urls := urls w; rng := g |}).
Definition or_overflow {A : Type} (o : option A) : M A :=
  match o with
  | Some a => mret a
  | None => raise OverflowError
  end.

(** The three errors of the service, as the handlers raise them. *)
Definition DuplicateShortcode : exn := HTTPException 400 "Shortcode already exists".
Definition NotFound : exn := HTTPException 404 "Shortcode not found".
Definition Expired : exn := HTTPException 410 "Link expired".

(** ** The handlers *)

Definition generate_shortcode (length : nat) : M string :=
  cs ← with_rng
         (random.choices
            (list_ascii_of_string (pystring.ascii_letters +:+ pystring.digits))
            length);
  mret (pystring.join cs).

(** [data.shortcode or generate_shortcode()]: the left operand is taken
    when it is truthy, that is neither [None] nor the empty string. *)
Definition shortcode_or_generate (data : UrlRequest.t) : M string :=
  match UrlRequest.shortcode data with
  | Some s => if String.eqb s EmptyString then generate_shortcode 5 else mret s
  | None => generate_shortcode 5
  end.

(** [utcnow] is the reading of [datetime.utcnow()] the call makes. *)
Definition create_short_url (data : UrlRequest.t) (request : Request.t)
    (utcnow : datetime.t) : M UrlResponse.t :=
  shortcode ← shortcode_or_generate data;
  u ← get_urls;
  if decide (shortcode ∈ dom u) then
    raise (HTTPException 400 "Shortcode already exists")
  else
    delta ← or_overflow (datetime.timedelta_minutes (UrlRequest.validity data));
    expiry ← or_overflow (datetime.add utcnow delta);
    put_urls (<[shortcode := {| Entry.url := UrlRequest.url data;
                                Entry.expiry := expiry;
                                Entry.clicks := [] |}]> u);;
    let host := pystring.rstrip "/" (Request.base_url request) in
    mret {| UrlResponse.shortLink := host +:+ "/" +:+ shortcode;
            UrlResponse.expiry := datetime.isoformat expiry |}.

(** [utcnow] is the clock reading compared with the expiry, [utcnow']
    the later reading that stamps the click. *)
Definition redirect_url (shortcode : string) (request : Request.t)
    (utcnow utcnow' : datetime.t) : M RedirectResponse.t :=
  u ← get_urls;
  match u !! shortcode with
  | None => raise (HTTPException 404 "Shortcode not found")
  | Some entry =>
      if datetime.gt utcnow (Entry.expiry entry) then
        raise (HTTPException 410 "Link expired")
      else
        let click :=
          {| Click.timestamp := datetime.isoformat utcnow';
             Click.referrer :=
               Request.headers_get (Request.headers request) "referer" "unknown";
             Click.ip := Request.client_host request |} in
        put_urls (<[shortcode := {| Entry.url := Entry.url entry;
                                    Entry.expiry := Entry.expiry entry;
                                    Entry.clicks := Entry.clicks entry ++ [click] |}]> u);;
        mret {| RedirectResponse.redirect_to := Entry.url entry |}
  end.

Definition stats (shortcode : string) : M StatsResponse.t :=
  u ← get_urls;
  match u !! shortcode with
  | None => raise (HTTPException 404 "Shortcode not found")
  | Some entry =>
      mret {| StatsResponse.url := Entry.url entry;
              StatsResponse.expiry := datetime.isoformat (Entry.expiry entry);
              StatsResponse.total_clicks := length (Entry.clicks entry);
              StatsResponse.click_data := Entry.clicks entry |}
  end.

(** ** Sequences of requests *)

Inductive call : Type :=
| CallCreate (body : UrlRequest.body) (request : Request.t) (utcnow : datetime.t)
| CallRedirect (shortcode : string) (request : Request.t) (utcnow utcnow' : datetime.t)
| CallStats (shortcode : string).

Inductive reply : Type :=
| ReplyCreate (r : outcome UrlResponse.t)
| ReplyRedirect (r : outcome RedirectResponse.t)
| ReplyStats (r : outcome StatsResponse.t).

Definition handle (c : call) (w : World) : reply * World :=
  match c with
  | CallCreate b rq now =>
      let '(r, w') := create_short_url (UrlRequest.of_body b) rq now w in
      (ReplyCreate r, w')
  | CallRedirect sc rq now now' =>
      let '(r, w') := redirect_url sc rq now now' w in (ReplyRedirect r, w')
  | CallStats sc =>
      let '(r, w') := stats sc w in (ReplyStats r, w')
  end.

(** Serve the calls in order; the log pairs each call with its reply. *)
Fixpoint run (cs : list call) (w : World) : list (call * reply) * World :=
  match cs with
  | [] => ([], w)
  | c :: cs' =>
      let '(r, w1) := handle c w in
      let '(log, w2) := run cs' w1 in
      ((c, r) :: log, w2)
  end.


(** ** Notions used to state the properties *)

(** The click a redirect records. *)
Definition click_of (request : Request.t) (utcnow' : datetime.t) : Click.t :=
  {| Click.timestamp := datetime.isoformat utcnow';
     Click.referrer :=
       Request.headers_get (Request.headers request) "referer" "unknown";
     Click.ip := Request.client_host request |}.

(** An entry with one more click at the end of its list. *)
Definition with_click (e : Entry.t) (c : Click.t) : Entry.t :=
  {| Entry.url := Entry.url e;
     Entry.expiry := Entry.expiry e;
     Entry.clicks := Entry.clicks e ++ [c] |}.

(** The population [generate_shortcode] draws from. *)
Definition alphabet : list ascii :=
  list_ascii_of_string (pystring.ascii_letters +:+ pystring.digits).

(** A–Z, a–z or 0–9, by character code. *)
Definition is_alnum (c : ascii) : bool :=
  let n := nat_of_ascii c in
  ((65 <=? n) && (n <=? 90) || (97 <=? n) && (n <=? 122)
   || (48 <=? n) && (n <=? 57))%nat.

(** [e'] is the record [e] after some more clicks: same target, same
    expiry, and the old click list is an initial segment of the new. *)
Definition grown_from (e e' : Entry.t) : Prop :=
  Entry.url e' = Entry.url e
  ∧ Entry.expiry e' = Entry.expiry e
  ∧ Entry.clicks e `prefix_of` Entry.clicks e'.

(** The click list stored under a shortcode, empty when there is none. *)
Definition clicks_in (w : World) (sc : string) : list Click.t :=
  match urls w !! sc with
  | Some e => Entry.clicks e
  | None => []
  end.






(** ** Sample values *)

Definition g0 : random.state := random.mkState (λ i, (7 * i + 3)%nat) 0.

Definition rq0 : Request.t :=
  {| Request.base_url := "http://127.0.0.1:8000/";
     Request.headers := [("host", "127.0.0.1:8000"); ("referer", "http://ref.example/")];
     Request.client_host := "10.0.0.1" |}.

Definition rq1 : Request.t :=
  {| Request.base_url := "http://127.0.0.1:8000/";
     Request.headers := [("host", "127.0.0.1:8000")];
     Request.client_host := "10.0.0.2" |}.

(** 2024-01-01T00:30:00. *)
Definition t0 : datetime.t := 63839665800000000.

Definition link0 : Entry.t :=
  {| Entry.url := "https://a.com";
     Entry.expiry := t0 + 30 * datetime.US_PER_MINUTE;
     Entry.clicks := [] |}.

(** A registry holding the single shortcode ["abc123"]. *)
Definition w0 : World := {| urls := {[ "abc123"%string := link0 ]}; rng := g0 |}.

(** A request for a link that is born expired, and the world after it. *)
Definition data_expired : UrlRequest.t :=
  {| UrlRequest.url := "https://a.com";
     UrlRequest.validity := -1;
     UrlRequest.shortcode := Some "old"%string |}.


(** A request whose shortcode is the empty string, and one without. *)
Definition data_empty : UrlRequest.t :=
  {| UrlRequest.url := "https://a.com";
     UrlRequest.validity := 30;
     UrlRequest.shortcode := Some EmptyString |}.

Definition data_none : UrlRequest.t :=
  {| UrlRequest.url := "https://a.com";
     UrlRequest.validity := 30;
     UrlRequest.shortcode := None |}.

(** A registry that already holds the code [g0] generates first. *)
Definition w_taken : World :=
  {| urls := {[ "dkryF"%string := link0 ]}; rng := g0 |}.

(** A short session on [w0], its log and the world it ends in. *)
Definition calls0 : list call :=
  [ CallRedirect "abc123" rq0 t0 (t0 + 1);
    CallCreate (UrlRequest.mkBody "https://b.com" None (Some "abc123"%string)) rq0 t0;
    CallStats "abc123";
    CallRedirect "abc123" rq1 (t0 + 2) (t0 + 3) ].

Definition log0 : list (call * reply) := (run calls0 w0).1.

Definition w0' : World := (run calls0 w0).2.


(** ** The variant of the service that logs

    [Backend text submition/main.py]: the same three handlers, each
    writing an INFO record on success, behind a middleware that logs
    every request and the status of its response. *)

(** ["%d"] on any integer, as an f-string prints a status code. *)
Definition str_int (z : Z) : string :=
  if z <? 0 then "-" +:+ datetime.decimal (- z) else datetime.decimal z.

Module Backend.

(** The process state with the messages handed to [logger.info], oldest
    first; the formatter's time and level prefix is left out. *)
Record State : Type := mkState { world : World; logs : list string }.

Definition LM (A : Type) : Type := State → outcome A * State.

#[global] Instance LM_ret : MRet LM := λ A a s, (Returned a, s).
#[global] Instance LM_bind : MBind LM := λ A B f m s,
  match m s with
  | (Returned a, s') => f a s'
  | (Raised e, s') => (Raised e, s')
  end.

Definition throw {A : Type} (e : exn) : LM A := λ s, (Raised e, s).
Definition read_urls : LM (gmap string Entry.t) :=
  λ s, (Returned (urls (world s)), s).
Definition write_urls (u : gmap string Entry.t) : LM unit :=
  λ s, (Returned tt,
        {| world := {| urls := u; rng := rng (world s) |}; logs := logs s |}).
Definition draw {A : Type} (f : random.state → A * random.state) : LM A :=
  λ s, let '(a, g) := f (rng (world s)) in
       (Returned a,
        {| world := {| urls := urls (world s); rng := g |}; logs := logs s |}).
Definition overflow_or {A : Type} (o : option A) : LM A :=
  match o with
  | Some a => mret a
  | None => throw OverflowError
  end.

(** [logger.info(msg)]. *)
Definition logger_info (msg : string) : LM unit :=
  λ s, (Returned tt, {| world := world s; logs := logs s ++ [msg] |}).

Definition generate_shortcode (length : nat) : LM string :=
  cs ← draw
         (random.choices
            (list_ascii_of_string (pystring.ascii_letters +:+ pystring.digits))
            length);
  mret (pystring.join cs).

(** [data.shortcode or generate_shortcode()]. *)
Definition given_or_generated (data : UrlRequest.t) : LM string :=
  match UrlRequest.shortcode data with
  | Some s => if String.eqb s EmptyString then generate_shortcode 5 else mret s
  | None => generate_shortcode 5
  end.

Definition create_short_url (data : UrlRequest.t) (request : Request.t)
    (utcnow : datetime.t) : LM UrlResponse.t :=
  shortcode ← given_or_generated data;
  u ← read_urls;
  if decide (shortcode ∈ dom u) then
    throw (HTTPException 400 "Shortcode already exists")
  else
    delta ← overflow_or (datetime.timedelta_minutes (UrlRequest.validity data));
    expiry ← overflow_or (datetime.add utcnow delta);
    write_urls (<[shortcode := {| Entry.url := UrlRequest.url data;
                                  Entry.expiry := expiry;
                                  Entry.clicks := [] |}]> u);;
    let base_url := pystring.rstrip "/" (Request.base_url request) in
    logger_info ("Short URL created: " +:+ shortcode +:+ " -> "
                 +:+ UrlRequest.url data);;
    mret {| UrlResponse.shortLink := base_url +:+ "/" +:+ shortcode;
            UrlResponse.expiry := datetime.isoformat expiry |}.

Definition redirect_url (shortcode : string) (request : Request.t)
    (utcnow utcnow' : datetime.t) : LM RedirectResponse.t :=
  u ← read_urls;
  match u !! shortcode with
  | None => throw (HTTPException 404 "Shortcode not found")
  | Some entry =>
      if datetime.gt utcnow (Entry.expiry entry) then
        throw (HTTPException 410 "Link expired")
      else
        let click :=
          {| Click.timestamp := datetime.isoformat utcnow';
             Click.referrer :=
               Request.headers_get (Request.headers request) "referer" "unknown";
             Click.ip := Request.client_host request |} in
        write_urls (<[shortcode := {| Entry.url := Entry.url entry;
                                      Entry.expiry := Entry.expiry entry;
                                      Entry.clicks := Entry.clicks entry ++ [click] |}]> u);;
        logger_info ("Redirect requested: " +:+ shortcode +:+ " -> "
                     +:+ Entry.url entry);;
        mret {| RedirectResponse.redirect_to := Entry.url entry |}
  end.

Definition stats (shortcode : string) : LM StatsResponse.t :=
  u ← read_urls;
  match u !! shortcode with
  | None => throw (HTTPException 404 "Shortcode not found")
  | Some entry =>
      mret {| StatsResponse.url := Entry.url entry;
              StatsResponse.expiry := datetime.isoformat (Entry.expiry entry);
              StatsResponse.total_clicks := length (Entry.clicks entry);
              StatsResponse.click_data := Entry.clicks entry |}
  end.

(** What the middleware reads of a request. *)
Record HttpRequest : Type := mkHttpRequest { method : string; url : string }.

(** The middleware [log_requests], for an inner application [call_next]
    whose responses carry a status code. *)
Definition log_requests {Resp : Type} (status_code : Resp → Z)
    (request : HttpRequest) (call_next : HttpRequest → LM Resp) : LM Resp :=
  logger_info ("Incoming request: " +:+ method request +:+ " " +:+ url request);;
  response ← call_next request;
  logger_info ("Response status: " +:+ str_int (status_code response));;
  mret response.

Definition handle (c : call) (s : State) : reply * State :=
  match c with
  | CallCreate b rq now =>
      let '(r, s') := create_short_url (UrlRequest.of_body b) rq now s in
      (ReplyCreate r, s')
  | CallRedirect sc rq now now' =>
      let '(r, s') := redirect_url sc rq now now' s in (ReplyRedirect r, s')
  | CallStats sc =>
      let '(r, s') := stats sc s in (ReplyStats r, s')
  end.

Fixpoint run (cs : list call) (s : State) : list (call * reply) * State :=
  match cs with
  | [] => ([], s)
  | c :: cs' =>
      let '(r, s1) := handle c s in
      let '(log, s2) := run cs' s1 in
      ((c, r) :: log, s2)
  end.

End Backend.

(** ** More notions used to state properties *)

(** The message the logging variant writes for a call and its reply:
    one for a create or a redirect that returned, none otherwise.  [w] is
    the world the call was served in. *)
Definition logged (c : call) (w : World) (r : reply) : list string :=
  match c, r with
  | CallCreate b _ _, ReplyCreate (Returned _) =>
      match shortcode_or_generate (UrlRequest.of_body b) w with
      | (Returned sc, _) =>
          ["Short URL created: " +:+ sc +:+ " -> " +:+ UrlRequest.body_url b]
      | _ => []
      end
  | CallRedirect sc _ _ _, ReplyRedirect (Returned resp) =>
      ["Redirect requested: " +:+ sc +:+ " -> "
       +:+ RedirectResponse.redirect_to resp]
  | _, _ => []
  end.

Definition reply_raised (r : reply) : bool :=
  match r with
  | ReplyCreate (Raised _) | ReplyRedirect (Raised _) | ReplyStats (Raised _) => true
  | _ => false
  end.

Definition is_successful_create (cr : call * reply) : bool :=
  match cr with
  | (CallCreate _ _ _, ReplyCreate (Returned _)) => true
  | _ => false
  end.

Definition is_stats_call (c : call) : bool :=
  match c with
  | CallStats _ => true
  | _ => false
  end.

(** The position of the first [c] in [l], or [length l]. *)
Fixpoint index_of (c : ascii) (l : list ascii) : nat :=
  match l with
  | [] => 0
  | x :: l' => if Ascii.eqb x c then 0 else S (index_of c l')
  end.

(** A generator whose next draws are the indices of the characters of
    [code] in the population. *)
Definition generator_of (code : string) : random.state :=
  {| random.draws :=
       λ n, index_of (nth n (list_ascii_of_string code) "000"%char) alphabet;
     random.pos := 0 |}.

(** Sample values for the logging variant. *)
Definition s0 : Backend.State := {| Backend.world := w0; Backend.logs := [] |}.

Definition get_stats_request : Backend.HttpRequest :=
  {| Backend.method := "GET";
     Backend.url := "http://127.0.0.1:8000/shorturls/abc123" |}.

(** A create without a shortcode, served where the generated code is taken. *)
Definition call_generated : call :=
  CallCreate (UrlRequest.mkBody "https://a.com" None None) rq0 t0.

(** The string of [k] copies of [c]. *)
Fixpoint repeat_char (c : ascii) (k : nat) : string :=
  match k with
  | O => EmptyString
  | S k' => String c (repeat_char c k')
  end.

(** A create of another shortcode, and a request without client headers
    other than two referers. *)
Definition call_other : call :=
  CallCreate (UrlRequest.mkBody "https://b.com" None (Some "other"%string)) rq0 t0.

Definition rq2 : Request.t :=
  {| Request.base_url := "http://127.0.0.1:8000/";
     Request.headers := [("host", "h"); ("referer", EmptyString); ("referer", "http://second/")];
     Request.client_host := "10.0.0.3" |}.

(** A call that was answered with a result, and was not a stats call. *)
Definition is_answered_change (cr : call * reply) : bool :=
  negb (reply_raised cr.2) && negb (is_stats_call cr.1).

(** The messages the logging variant writes over a sequence of calls
    served from [w]. *)
Fixpoint run_logged (cs : list call) (w : World) : list string :=
  match cs with
  | [] => []
  | c :: cs' =>
      let '(r, w1) := handle c w in
      logged c w r ++ run_logged cs' w1
  end.

(** ** The library model on known values *)

Example decimal_examples :
  datetime.decimal 0 = "0"%string
  ∧ datetime.decimal 9999 = "9999"%string
  ∧ datetime.fmt_0d 2 7 = "07"%string
  ∧ datetime.fmt_0d 6 42 = "000042"%string
  ∧ datetime.fmt_0d 2 123 = "123"%string.
Proof. by vm_compute. Qed.

Example ord2ymd_examples :
  datetime.ord2ymd 1 = (1, 1, 1)
  ∧ datetime.ord2ymd 730120 = (2000, 1, 1)
  ∧ datetime.ord2ymd 730179 = (2000, 2, 29)
  ∧ datetime.ord2ymd 730485 = (2000, 12, 31)
  ∧ datetime.ord2ymd 693595 = (1899, 12, 31)
  ∧ datetime.ord2ymd 693654 = (1900, 2, 28)
  ∧ datetime.ord2ymd 693655 = (1900, 3, 1)
  ∧ datetime.ord2ymd 738945 = (2024, 2, 29)
  ∧ datetime.ord2ymd 3652059 = (9999, 12, 31).
Proof. by vm_compute. Qed.

Example isoformat_examples :
  datetime.isoformat 0 = "0001-01-01T00:00:00"%string
  ∧ datetime.isoformat t0 = "2024-01-01T00:30:00"%string
  ∧ datetime.isoformat (t0 + 1) = "2024-01-01T00:30:00.000001"%string
  ∧ datetime.isoformat (datetime.MAXORDINAL * datetime.US_PER_DAY - 1)
    = "9999-12-31T23:59:59.999999"%string.
Proof. by vm_compute. Qed.

Example is_iso8601_examples :
  datetime.is_iso8601 "2024-01-01T00:30:00" = true
  ∧ datetime.is_iso8601 "2024-01-01T00:30:00.000001" = true
  ∧ datetime.is_iso8601 "2024-01-01 00:30:00" = false
  ∧ datetime.is_iso8601 "2024-01-01T00:30:00." = false
  ∧ datetime.is_iso8601 "2024-1-1T00:30:00" = false.
Proof. by vm_compute. Qed.

Example timedelta_examples :
  datetime.timedelta_minutes 30 = Some 1800000000
  ∧ datetime.timedelta_minutes (-1) = Some (-60000000)
  ∧ datetime.timedelta_minutes 10000000000 = Some 600000000000000000
  ∧ datetime.timedelta_minutes 10000000000000 = None
  ∧ datetime.add t0 600000000000000000 = None
  ∧ datetime.add 0 (-60000000) = None.
Proof. by vm_compute. Qed.

Example rstrip_examples :
  pystring.rstrip "/" "http://127.0.0.1:8000/" = "http://127.0.0.1:8000"%string
  ∧ pystring.rstrip "/" "http://h/api//" = "http://h/api"%string
  ∧ pystring.rstrip "/" "a/b" = "a/b"%string
  ∧ pystring.rstrip "/" "///" = EmptyString.
Proof. by vm_compute. Qed.

(** ** Facts about the library model *)

Module string_facts.

Lemma app_cons (c : ascii) (a b : string) :
  String c a +:+ b = String c (a +:+ b).
Proof. reflexivity. Qed.

Lemma app_nil_l (b : string) : EmptyString +:+ b = b.
Proof. reflexivity. Qed.

Lemma app_nil_r (a : string) : a +:+ EmptyString = a.
Proof. induction a as [|c a IH]; [done|]. by rewrite app_cons, IH. Qed.


Lemma app_snoc (a : string) (c : ascii) (b : string) :
  a +:+ String c b = (a +:+ String c EmptyString) +:+ b.
Proof. induction a as [|x a IH]; [done|]. by rewrite !app_cons, IH. Qed.

(** [rstrip] forgets a trailing [c], keeps a string that ends with
    another character, and so returns the longest prefix that does not
    end with [c]. *)
Lemma rstrip_snoc (c : ascii) (s : string) :
  pystring.rstrip c (s +:+ String c EmptyString) = pystring.rstrip c s.
Proof.
  induction s as [|a s IH].
  - rewrite app_nil_l. cbn [pystring.rstrip]. by rewrite Ascii.eqb_refl.
  - rewrite app_cons. cbn [pystring.rstrip]. by rewrite IH.
Qed.

Lemma rstrip_keeps (c a : ascii) (s : string) :
  a ≠ c →
  pystring.rstrip c (s +:+ String a EmptyString) = s +:+ String a EmptyString.
Proof.
  intros Hne. induction s as [|x s IH].
  - rewrite app_nil_l. cbn [pystring.rstrip].
    by destruct (Ascii.eqb_spec a c).
  - rewrite app_cons. cbn [pystring.rstrip]. rewrite IH.
    destruct s; by rewrite ?app_cons, ?app_nil_l.
Qed.

Lemma rstrip_empty (c : ascii) : pystring.rstrip c EmptyString = EmptyString.
Proof. reflexivity. Qed.

End string_facts.

Module datetime_facts.
Import datetime string_facts.
Local Ltac zlia := Z.to_euclidean_division_equations; lia.

Lemma validb_valid (d : t) : validb d = true ↔ valid d.
Proof.
  unfold validb, valid.
  rewrite andb_true_iff, Z.leb_le, Z.ltb_lt. tauto.
Qed.






Lemma digit_char_code (d : Z) :
  0 <= d < 10 → Z.of_nat (nat_of_ascii (digit_char d)) - 48 = d.
Proof.
  intros Hd.
  assert (H : d = 0 ∨ d = 1 ∨ d = 2 ∨ d = 3 ∨ d = 4 ∨ d = 5 ∨ d = 6
              ∨ d = 7 ∨ d = 8 ∨ d = 9) by lia.
  repeat (destruct H as [-> | H]); try subst d; reflexivity.
Qed.

Lemma digits_value_aux_app (a b : string) (v : Z) :
  digits_value_aux (a +:+ b) v = digits_value_aux b (digits_value_aux a v).
Proof.
  revert v. induction a as [|c a IH]; intros v; [done|].
  rewrite app_cons. cbn [digits_value_aux]. apply IH.
Qed.

(** With fuel above [log2 n] the digits written are those of [n]. *)
Lemma decimal_aux_value (fuel : nat) :
  ∀ (n : Z) (acc : string),
    0 <= n → Z.log2 n < Z.of_nat fuel →
    ∃ ds, decimal_aux fuel n acc = ds +:+ acc ∧ digits_value ds = n.
Proof.
  induction fuel as [|fuel IH]; intros n acc Hn Hfuel.
  - pose proof (Z.log2_nonneg n). lia.
  - cbn [decimal_aux]. destruct (Z.ltb_spec n 10) as [Hlt|Hge].
    + exists (String (digit_char (n mod 10)) EmptyString).
      split; [done|]. unfold digits_value. cbn [digits_value_aux].
      rewrite digit_char_code by zlia. zlia.
    + assert (Hlog : Z.log2 (n / 10) < Z.of_nat fuel).
      { assert (H2 : 2 * (n / 10) <= n) by zlia.
        apply Z.log2_le_mono in H2.
        rewrite Z.log2_double in H2 by zlia. lia. }
      destruct (IH (n / 10) (String (digit_char (n mod 10)) acc))
        as (ds & Heq & Hval); [zlia|done|].
      exists (ds +:+ String (digit_char (n mod 10)) EmptyString).
      split; [rewrite Heq; apply app_snoc|].
      unfold digits_value in *. rewrite digits_value_aux_app, Hval.
      cbn [digits_value_aux]. rewrite digit_char_code by zlia. zlia.
Qed.

(** [decimal n] is a numeral of [n]. *)
Lemma decimal_value (n : Z) : 0 <= n → digits_value (decimal n) = n.
Proof.
  intros Hn. unfold decimal.
  destruct (decimal_aux_value (S (Z.to_nat (Z.log2 n))) n EmptyString)
    as (ds & -> & Hval); [done| |by rewrite app_nil_r].
  pose proof (Z.log2_nonneg n). lia.
Qed.

Lemma digits_value_aux_zeros (k : nat) (s : string) :
  digits_value_aux (zeros k s) 0 = digits_value_aux s 0.
Proof. induction k as [|k IH]; [done|]. cbn [zeros digits_value_aux]. exact IH. Qed.

(** Padding with zeros keeps the number: [fmt_0d w n] reads back as [n]. *)
Lemma fmt_0d_value (w : nat) (n : Z) :
  0 <= n → digits_value (fmt_0d w n) = n.
Proof.
  intros Hn. unfold fmt_0d, zfill, digits_value.
  rewrite digits_value_aux_zeros. by apply decimal_value.
Qed.







End datetime_facts.
(** ** Equations of the handlers *)

Section handler_equations.
Implicit Types (w : World) (data : UrlRequest.t) (rq : Request.t).

Lemma choices_spec (population : list ascii) (k : nat) (g : random.state) :
  ∃ cs g', random.choices population k g = (cs, g')
    ∧ length cs = k
    ∧ random.draws g' = random.draws g
    ∧ random.pos g' = (random.pos g + k)%nat
    ∧ (population ≠ [] → Forall (λ c, c ∈ population) cs).
Proof.
  revert g. induction k as [|k IH]; intros g.
  - exists [], g. cbn. split_and!; auto with lia.
  - cbn [random.choices random.index_below].
    destruct (IH {| random.draws := random.draws g; random.pos := S (random.pos g) |})
      as (cs & g' & -> & Hlen & Hd & Hp & Hin).
    eexists _, g'. split; [reflexivity|]. cbn in *.
    split_and!; [lia|done|lia|].
    intros Hne. constructor; [|by apply Hin].
    apply list_elem_of_In, nth_In.
    apply Nat.mod_upper_bound. by destruct population.
Qed.

Lemma generate_shortcode_spec (n : nat) w :
  ∃ cs g', random.choices alphabet n (rng w) = (cs, g')
    ∧ generate_shortcode n w
      = (Returned (pystring.join cs), {| urls := urls w; rng := g' |}).
Proof.
  destruct (choices_spec alphabet n (rng w)) as (cs & g' & Hc & _).
  exists cs, g'. split; [done|].
  unfold generate_shortcode, mbind, M_bind, with_rng, mret, M_ret.
  fold alphabet. by rewrite Hc.
Qed.

Lemma create_short_url_eq data rq now w sc w1 :
  shortcode_or_generate data w = (Returned sc, w1) →
  create_short_url data rq now w =
    if decide (sc ∈ dom (urls w1)) then (Raised DuplicateShortcode, w1)
    else
      match datetime.timedelta_minutes (UrlRequest.validity data) with
      | None => (Raised OverflowError, w1)
      | Some delta =>
          match datetime.add now delta with
          | None => (Raised OverflowError, w1)
          | Some expiry =>
              (Returned
                 {| UrlResponse.shortLink :=
                      pystring.rstrip "/" (Request.base_url rq) +:+ "/" +:+ sc;
                    UrlResponse.expiry := datetime.isoformat expiry |},
               {| urls := <[sc := {| Entry.url := UrlRequest.url data;
                                     Entry.expiry := expiry;
                                     Entry.clicks := [] |}]> (urls w1);
                  rng := rng w1 |})
          end
      end.
Proof.
  intros Hsc. unfold create_short_url, mbind, M_bind. rewrite Hsc.
  unfold get_urls. case_decide; [done|].
  destruct (datetime.timedelta_minutes _) as [delta|]; [|done].
  cbn. destruct (datetime.add now delta) as [expiry|]; done.
Qed.

Lemma shortcode_or_generate_given data w (s : string) :
  UrlRequest.shortcode data = Some s → s ≠ EmptyString →
  shortcode_or_generate data w = (Returned s, w).
Proof.
  intros Hs Hne. unfold shortcode_or_generate. rewrite Hs.
  destruct (String.eqb_spec s EmptyString) as [E|E]; [done|reflexivity].
Qed.

Lemma shortcode_or_generate_falsy data w :
  UrlRequest.shortcode data = None ∨ UrlRequest.shortcode data = Some EmptyString →
  shortcode_or_generate data w = generate_shortcode 5 w.
Proof. unfold shortcode_or_generate. by intros [-> | ->]. Qed.

(** The expression always yields a shortcode and leaves [urls] alone. *)
Lemma shortcode_or_generate_returns data w :
  ∃ sc g', shortcode_or_generate data w
           = (Returned sc, {| urls := urls w; rng := g' |})
           ∧ sc ≠ EmptyString.
Proof.
  destruct (UrlRequest.shortcode data) as [s|] eqn:Hs.
  - destruct (decide (s = EmptyString)) as [->|Hne].
    + rewrite shortcode_or_generate_falsy by auto.
      destruct (generate_shortcode_spec 5 w) as (cs & g' & Hc & ->).
      exists (pystring.join cs), g'. split; [done|].
      destruct (choices_spec alphabet 5 (rng w)) as (cs' & g'' & Hc' & Hlen & _).
      rewrite Hc in Hc'. injection Hc' as <- <-.
      destruct cs; [done|]. done.
    + exists s, (rng w). rewrite (shortcode_or_generate_given data w s) by done.
      by destruct w.
  - rewrite shortcode_or_generate_falsy by auto.
    destruct (generate_shortcode_spec 5 w) as (cs & g' & Hc & ->).
    exists (pystring.join cs), g'. split; [done|].
    destruct (choices_spec alphabet 5 (rng w)) as (cs' & g'' & Hc' & Hlen & _).
    rewrite Hc in Hc'. injection Hc' as <- <-.
    destruct cs; [done|]. done.
Qed.

Lemma shortcode_or_generate_urls data w sc w1 :
  shortcode_or_generate data w = (Returned sc, w1) →
  urls w1 = urls w ∧ sc ≠ EmptyString.
Proof.
  destruct (shortcode_or_generate_returns data w) as (sc' & g' & -> & Hne).
  by intros [= <- <-].
Qed.

Lemma redirect_url_eq (sc : string) rq (now now' : datetime.t) w :
  redirect_url sc rq now now' w =
    match urls w !! sc with
    | None => (Raised NotFound, w)
    | Some e =>
        if datetime.gt now (Entry.expiry e) then (Raised Expired, w)
        else (Returned {| RedirectResponse.redirect_to := Entry.url e |},
              {| urls := <[sc := with_click e (click_of rq now')]> (urls w);
                 rng := rng w |})
    end.
Proof.
  unfold redirect_url, mbind, M_bind, get_urls.
  destruct (urls w !! sc) as [e|]; [|done].
  destruct (datetime.gt now (Entry.expiry e)); done.
Qed.

Lemma stats_eq (sc : string) w :
  stats sc w =
    match urls w !! sc with
    | None => (Raised NotFound, w)
    | Some e =>
        (Returned
           {| StatsResponse.url := Entry.url e;
              StatsResponse.expiry := datetime.isoformat (Entry.expiry e);
              StatsResponse.total_clicks := length (Entry.clicks e);
              StatsResponse.click_data := Entry.clicks e |}, w)
    end.
Proof.
  unfold stats, mbind, M_bind, get_urls.
  by destruct (urls w !! sc) as [e|].
Qed.
End handler_equations.


(** ** What every request preserves *)

Section preservation.
Implicit Types (w : World) (c : call) (r : reply) (sc : string).

Lemma grown_from_refl (e : Entry.t) : grown_from e e.
Proof. by split_and!. Qed.

Lemma grown_from_trans (e1 e2 e3 : Entry.t) :
  grown_from e1 e2 → grown_from e2 e3 → grown_from e1 e3.
Proof.
  intros (Hu1 & Hx1 & Hc1) (Hu2 & Hx2 & Hc2). split_and!; [congruence..|].
  by etrans.
Qed.

Lemma grown_from_with_click (e : Entry.t) (k : Click.t) :
  grown_from e (with_click e k).
Proof. split_and!; [done..|]. by apply prefix_app_r. Qed.

(** The registry after one request, in terms of the registry before. *)
Lemma handle_urls c w r w' :
  handle c w = (r, w') →
  urls w' = urls w
  ∨ (∃ b rq now sc e resp,
        c = CallCreate b rq now ∧ r = ReplyCreate (Returned resp)
        ∧ urls w !! sc = None ∧ sc ≠ EmptyString
        ∧ Entry.url e = UrlRequest.body_url b
        ∧ Entry.clicks e = []
        ∧ datetime.valid (Entry.expiry e)
        ∧ urls w' = <[sc := e]> (urls w))
  ∨ (∃ sc rq now now' e resp,
        c = CallRedirect sc rq now now' ∧ r = ReplyRedirect (Returned resp)
        ∧ urls w !! sc = Some e
        ∧ urls w' = <[sc := with_click e (click_of rq now')]> (urls w)).
Proof.
  destruct c as [b rq now | sc rq now now' | sc]; cbn [handle].
  - destruct (shortcode_or_generate_returns (UrlRequest.of_body b) w)
      as (sc & g' & Hsc & Hne).
    rewrite (create_short_url_eq _ _ _ _ _ _ Hsc). cbn [urls rng].
    case_decide as Hin; [intros [= <- <-]; by left|].
    destruct (datetime.timedelta_minutes _) as [delta|];
      [|intros [= <- <-]; by left].
    unfold datetime.add.
    destruct (datetime.validb (now + delta)) eqn:Hv;
      [|intros [= <- <-]; by left].
    intros [= <- <-]. right; left.
    exists b, rq, now, sc,
      {| Entry.url := UrlRequest.body_url b;
         Entry.expiry := now + delta;
         Entry.clicks := [] |}.
    eexists. split_and!; [reflexivity..| | | | | |reflexivity]; try done.
    + by apply not_elem_of_dom.
    + by apply datetime_facts.validb_valid.
  - rewrite redirect_url_eq.
    destruct (urls w !! sc) as [e|] eqn:He; [|intros [= <- <-]; by left].
    destruct (datetime.gt now (Entry.expiry e)); intros [= <- <-]; [by left|].
    right; right. by eexists sc, rq, now, now', e, _.
  - rewrite stats_eq.
    destruct (urls w !! sc) as [e|]; intros [= <- <-]; by left.
Qed.

Lemma handle_grows c w r w' sc (e : Entry.t) :
  handle c w = (r, w') → urls w !! sc = Some e →
  ∃ e', urls w' !! sc = Some e' ∧ grown_from e e'.
Proof.
  intros Hh He.
  destruct (handle_urls _ _ _ _ Hh)
    as [-> | [(b & rq & now & sc' & e' & resp & _ & _ & Hnone & _ & _ & _ & _ & ->)
             | (sc' & rq & now & now' & e' & resp & _ & _ & He' & ->)]].
  - exists e. split; [done|apply grown_from_refl].
  - exists e. rewrite lookup_insert_ne by congruence.
    split; [done|apply grown_from_refl].
  - destruct (decide (sc' = sc)) as [->|Hne].
    + rewrite lookup_insert_eq. eexists; split; [done|].
      rewrite He in He'. injection He' as <-. apply grown_from_with_click.
    + rewrite lookup_insert_ne by done.
      exists e. split; [done|apply grown_from_refl].
Qed.

Lemma run_grows (cs : list call) :
  ∀ w log w' sc (e : Entry.t),
    run cs w = (log, w') → urls w !! sc = Some e →
    ∃ e', urls w' !! sc = Some e' ∧ grown_from e e'.
Proof.
  induction cs as [|c cs IH]; intros w log w' sc e; cbn [run].
  - intros [= <- <-] He. exists e. split; [done|apply grown_from_refl].
  - destruct (handle c w) as [r w1] eqn:Hh.
    destruct (run cs w1) as [log' w2] eqn:Hr.
    intros [= <- <-] He.
    destruct (handle_grows _ _ _ _ _ _ Hh He) as (e1 & He1 & Hg1).
    destruct (IH _ _ _ _ _ Hr He1) as (e2 & He2 & Hg2).
    exists e2. split; [done|]. by eapply grown_from_trans.
Qed.




Lemma handle_no_empty_key c w r w' :
  handle c w = (r, w') → urls w !! EmptyString = None → urls w' !! EmptyString = None.
Proof.
  intros Hh Hn.
  destruct (handle_urls _ _ _ _ Hh)
    as [-> | [(b & rq & now & sc' & e' & resp & _ & _ & _ & Hne & _ & _ & _ & ->)
             | (sc' & rq & now & now' & e' & resp & _ & _ & He' & ->)]].
  - done.
  - by rewrite lookup_insert_ne.
  - rewrite lookup_insert_ne; [done|]. intros ->. congruence.
Qed.

Lemma run_no_empty_key (cs : list call) :
  ∀ w log w', run cs w = (log, w') →
    urls w !! EmptyString = None → urls w' !! EmptyString = None.
Proof.
  induction cs as [|c cs IH]; intros w log w'; cbn [run].
  - by intros [= <- <-].
  - destruct (handle c w) as [r w1] eqn:Hh.
    destruct (run cs w1) as [log' w2] eqn:Hr.
    intros [= <- <-] Hn. eapply IH; [done|]. by eapply handle_no_empty_key.
Qed.



End preservation.

(** ** The properties of the service *)

Section claims_support.
Implicit Types (w : World) (rq : Request.t) (sc : string).


Lemma headers_get_first (pre post : list (string * string))
    (key v dflt : string) :
  (∀ v', (key, v') ∉ pre) →
  Request.headers_get (pre ++ (key, v) :: post) key dflt = v.
Proof.
  induction pre as [|[k v0] pre IH]; intros Hno; cbn [Request.headers_get app].
  - by rewrite String.eqb_refl.
  - destruct (String.eqb_spec k key) as [->|Hne].
    + exfalso. apply (Hno v0). by left.
    + apply IH. intros v' Hin. apply (Hno v'). by right.
Qed.

Lemma gt_false_iff (a b : datetime.t) : datetime.gt a b = false ↔ a <= b.
Proof. unfold datetime.gt. by rewrite Z.ltb_ge. Qed.

Lemma gt_true_iff (a b : datetime.t) : datetime.gt a b = true ↔ b < a.
Proof. unfold datetime.gt. by rewrite Z.ltb_lt. Qed.

Lemma redirect_url_live sc rq (now now' : datetime.t) w (e : Entry.t) :
  urls w !! sc = Some e → now <= Entry.expiry e →
  redirect_url sc rq now now' w
  = (Returned {| RedirectResponse.redirect_to := Entry.url e |},
     {| urls := <[sc := with_click e (click_of rq now')]> (urls w);
        rng := rng w |}).
Proof.
  intros He Hle. rewrite redirect_url_eq, He.
  by rewrite (proj2 (gt_false_iff _ _) Hle).
Qed.

Lemma redirect_url_expired sc rq (now now' : datetime.t) w (e : Entry.t) :
  urls w !! sc = Some e → Entry.expiry e < now →
  redirect_url sc rq now now' w = (Raised Expired, w).
Proof.
  intros He Hlt. rewrite redirect_url_eq, He.
  by rewrite (proj2 (gt_true_iff _ _) Hlt).
Qed.


(** Once a stored link has expired, it stays stored and expired
    whatever requests follow. *)
Lemma expired_forever (cs : list call) w (log : list (call * reply)) w' sc
    (e : Entry.t) (now : datetime.t) :
  urls w !! sc = Some e → Entry.expiry e < now →
  run cs w = (log, w') →
  ∃ e', urls w' !! sc = Some e' ∧ grown_from e e'
        ∧ ∀ rq (t t' : datetime.t), now <= t →
            redirect_url sc rq t t' w' = (Raised Expired, w').
Proof.
  intros He Hlt Hrun.
  destruct (run_grows _ _ _ _ _ _ Hrun He) as (e' & He' & Hg).
  exists e'. split_and!; [done..|].
  intros rq t t' Ht. apply (redirect_url_expired _ _ _ _ _ e'); [done|].
  destruct Hg as (_ & -> & _). lia.
Qed.
End claims_support.

(** C1. A create whose shortcode, given or generated, is already a key
    of the registry raises the 400 error "Shortcode already exists"
    ([DuplicateShortcode]) and leaves the registry as it was: the record
    stored under that shortcode is the same and no key is added. *)
Theorem create_duplicate_rejected (data : UrlRequest.t) (rq : Request.t)
    (now : datetime.t) (w w1 : World) (sc : string) (e : Entry.t) :
  shortcode_or_generate data w = (Returned sc, w1) →
  urls w !! sc = Some e →
  create_short_url data rq now w
  = (Raised (HTTPException 400 "Shortcode already exists"), w1)
  ∧ DuplicateShortcode = HTTPException 400 "Shortcode already exists"
  ∧ urls w1 = urls w
  ∧ urls w1 !! sc = Some e.
Proof.
  intros Hsc He.
  destruct (shortcode_or_generate_urls _ _ _ _ Hsc) as [Hu _].
  rewrite (create_short_url_eq _ _ _ _ _ _ Hsc), Hu.
  rewrite decide_True by (apply elem_of_dom; eauto).
  by rewrite He.
Qed.

Lemma create_duplicate_rejected_witness :
  let data := {| UrlRequest.url := "https://b.com"; UrlRequest.validity := 30;
                 UrlRequest.shortcode := Some "abc123"%string |} in
  shortcode_or_generate data w0 = (Returned "abc123"%string, w0)
  ∧ urls w0 !! "abc123"%string = Some link0
  ∧ create_short_url data rq0 t0 w0
    = (Raised (HTTPException 400 "Shortcode already exists"), w0).
Proof.
  intros data.
  split; [reflexivity|]. split; [reflexivity|].
  apply (create_duplicate_rejected data rq0 t0 w0 w0 "abc123" link0);
    reflexivity.
Defined.



(** C3. A redirect of a shortcode that is not stored raises the 404
    error ([NotFound]).  A redirect of a stored shortcode at a time
    strictly after its expiry raises the 410 error ([Expired]), a
    different error, and changes nothing: no click is appended and the
    entry stays in the registry; after any further requests the entry
    is still there and every redirect of it at that time or later
    raises [Expired] again. *)
Theorem redirect_not_found_or_expired (sc : string) (rq : Request.t)
    (now now' : datetime.t) (w : World) :
  (urls w !! sc = None →
   redirect_url sc rq now now' w
   = (Raised (HTTPException 404 "Shortcode not found"), w))
  ∧ (∀ e : Entry.t,
       urls w !! sc = Some e → Entry.expiry e < now →
       redirect_url sc rq now now' w
       = (Raised (HTTPException 410 "Link expired"), w)
       ∧ ∀ cs log w',
           run cs w = (log, w') →
           ∃ e', urls w' !! sc = Some e'
                 ∧ Entry.expiry e' = Entry.expiry e
                 ∧ ∀ rq2 (t t' : datetime.t), now <= t →
                     redirect_url sc rq2 t t' w'
                     = (Raised (HTTPException 410 "Link expired"), w'))
  ∧ NotFound = HTTPException 404 "Shortcode not found"
  ∧ Expired = HTTPException 410 "Link expired"
  ∧ NotFound ≠ Expired.
Proof.
  split_and!; [| |done..].
  - intros Hn. by rewrite redirect_url_eq, Hn.
  - intros e He Hlt. split; [by apply (redirect_url_expired _ _ _ _ _ e)|].
    intros cs log w' Hrun.
    destruct (expired_forever cs w log w' sc e now He Hlt Hrun)
      as (e' & He' & (_ & Hx & _) & Hexp).
    exists e'. split_and!; [done..|]. intros rq2 t t' Ht. by apply Hexp.
Qed.

Lemma redirect_not_found_or_expired_witness :
  let late := t0 + 31 * datetime.US_PER_MINUTE in
  (urls w0 !! "nope"%string = None
   ∧ redirect_url "nope" rq0 t0 t0 w0
     = (Raised (HTTPException 404 "Shortcode not found"), w0))
  ∧ (urls w0 !! "abc123"%string = Some link0
     ∧ Entry.expiry link0 < late
     ∧ redirect_url "abc123" rq0 late late w0
       = (Raised (HTTPException 410 "Link expired"), w0)).
Proof.
  intros late.
  assert (Hlt : Entry.expiry link0 < late).
  { unfold late, link0, t0, datetime.US_PER_MINUTE, datetime.US_PER_SECOND.
    cbn [Entry.expiry]. lia. }
  split.
  - split; [reflexivity|].
    apply (proj1 (redirect_not_found_or_expired "nope" rq0 t0 t0 w0)).
    reflexivity.
  - split; [reflexivity|]. split; [exact Hlt|].
    apply (proj1 (proj2 (redirect_not_found_or_expired "abc123" rq0 late late w0))
             link0); [reflexivity|exact Hlt].
Defined.



(** C5, amended. Round trip.  When a create with a given, non-empty shortcode has
    succeeded, the link it returned is the base URL without its trailing
    slashes, then "/", then the shortcode; and, whatever requests are
    served in between, a redirect of that shortcode at a time not after
    the expiry returns the very target string that was submitted. *)
Theorem create_redirect_roundtrip (target : string) (validity : Z)
    (sc : string) (rq : Request.t) (now : datetime.t) (w w1 : World)
    (resp : UrlResponse.t) :
  sc ≠ EmptyString →
  create_short_url {| UrlRequest.url := target;
                      UrlRequest.validity := validity;
                      UrlRequest.shortcode := Some sc |} rq now w
  = (Returned resp, w1) →
  UrlResponse.shortLink resp
  = pystring.rstrip "/" (Request.base_url rq) +:+ "/" +:+ sc
  ∧ ∃ e, urls w1 !! sc = Some e
         ∧ Entry.url e = target
         ∧ Entry.expiry e = now + validity * datetime.US_PER_MINUTE
         ∧ ∀ cs log w2,
             run cs w1 = (log, w2) →
             ∀ rq2 (t t' : datetime.t),
               t <= Entry.expiry e →
               ∃ w3, redirect_url sc rq2 t t' w2
                     = (Returned {| RedirectResponse.redirect_to := target |}, w3).
Proof.
  intros Hne Hcreate.
  set (data := {| UrlRequest.url := target; UrlRequest.validity := validity;
                  UrlRequest.shortcode := Some sc |}) in *.
  rewrite (create_short_url_eq data rq now w sc w
             (shortcode_or_generate_given data w sc eq_refl Hne)) in Hcreate.
  case_decide as Hin; [done|].
  unfold datetime.timedelta_minutes in Hcreate. cbn [UrlRequest.validity data] in Hcreate.
  destruct (_ && _); [|done].
  unfold datetime.add in Hcreate.
  destruct (datetime.validb _); [|done].
  injection Hcreate as <- <-. split; [done|].
  eexists. split; [apply lookup_insert_eq|]. cbn [Entry.url Entry.expiry].
  split_and!; [done|lia|].
  intros cs log w2 Hrun rq2 t t' Ht.
  edestruct (run_grows cs) as (e' & He' & Hu & Hx & _);
    [exact Hrun|apply lookup_insert_eq|].
  cbn in Hu, Hx.
  rewrite (redirect_url_live sc rq2 t t' w2 e' He') by lia.
  rewrite Hu. by eexists.
Qed.

Lemma create_redirect_roundtrip_witness :
  let data := {| UrlRequest.url := "https://example.com/a?b=c";
                 UrlRequest.validity := 30;
                 UrlRequest.shortcode := Some "abc123"%string |} in
  let w1 := (create_short_url data rq0 t0 (initial g0)).2 in
  "abc123"%string ≠ EmptyString
  ∧ create_short_url data rq0 t0 (initial g0)
    = (Returned {| UrlResponse.shortLink := "http://127.0.0.1:8000/abc123";
                   UrlResponse.expiry := "2024-01-01T01:00:00" |}, w1)
  ∧ ∃ w3, redirect_url "abc123" rq1 (t0 + 1) (t0 + 2) w1
          = (Returned {| RedirectResponse.redirect_to := "https://example.com/a?b=c" |},
             w3).
Proof.
  intros data w1.
  assert (Hne : "abc123"%string ≠ EmptyString) by discriminate.
  assert (Hc : create_short_url data rq0 t0 (initial g0)
               = (Returned {| UrlResponse.shortLink := "http://127.0.0.1:8000/abc123";
                              UrlResponse.expiry := "2024-01-01T01:00:00" |}, w1))
    by reflexivity.
  split; [exact Hne|]. split; [exact Hc|].
  destruct (create_redirect_roundtrip _ _ _ _ _ _ _ _ Hne Hc)
    as (_ & e & He & Hu & Hx & Hrt).
  apply (Hrt [] [] w1 eq_refl rq1 (t0 + 1) (t0 + 2)).
  rewrite Hx. unfold t0, datetime.US_PER_MINUTE, datetime.US_PER_SECOND. lia.
Defined.

(** C5 as stated fails for the shortcode given as the empty string:
    the create succeeds, with a generated code in its link, and a
    redirect of the empty string, well before the expiry, finds
    nothing. *)
Lemma roundtrip_fails_for_empty_shortcode :
  UrlRequest.shortcode data_empty = Some EmptyString
  ∧ ∃ w1,
      create_short_url data_empty rq0 t0 (initial g0)
      = (Returned {| UrlResponse.shortLink := "http://127.0.0.1:8000/dkryF";
                     UrlResponse.expiry := "2024-01-01T01:00:00" |}, w1)
      ∧ redirect_url EmptyString rq1 (t0 + 1) (t0 + 2) w1
        = (Raised (HTTPException 404 "Shortcode not found"), w1)
      ∧ "http://127.0.0.1:8000/dkryF"%string
        ≠ (pystring.rstrip "/" (Request.base_url rq0) +:+ "/" +:+ EmptyString).
Proof.
  split; [reflexivity|].
  eexists. split; [reflexivity|]. split; [reflexivity|].
  vm_compute. discriminate.
Qed.

Section create_support.
Implicit Types (w : World) (rq : Request.t) (sc : string).

(** [timedelta(minutes=m)] is representable whenever adding it to a
    datetime can give a datetime. *)
Lemma timedelta_minutes_ok (now : datetime.t) (m : Z) :
  datetime.valid now → datetime.valid (now + m * datetime.US_PER_MINUTE) →
  datetime.timedelta_minutes m = Some (m * datetime.US_PER_MINUTE).
Proof.
  unfold datetime.valid, datetime.timedelta_minutes, datetime.MAXORDINAL,
    datetime.MAX_DELTA_DAYS, datetime.US_PER_DAY, datetime.US_PER_HOUR,
    datetime.US_PER_MINUTE, datetime.US_PER_SECOND.
  intros Hnow Hsum. cbv zeta.
  repeat match goal with
    | |- context [?a <=? ?b] => destruct (Z.leb_spec a b)
    end; first [reflexivity | exfalso; Z.to_euclidean_division_equations; lia].
Qed.

Lemma timedelta_minutes_some (m : Z) (delta : datetime.timedelta) :
  datetime.timedelta_minutes m = Some delta →
  delta = m * datetime.US_PER_MINUTE.
Proof.
  unfold datetime.timedelta_minutes. cbv zeta.
  destruct (_ && _); [|done]. by intros [= <-].
Qed.

Lemma add_some (d : datetime.t) (delta : datetime.timedelta) (r : datetime.t) :
  datetime.add d delta = Some r ↔ r = d + delta ∧ datetime.valid r.
Proof.
  unfold datetime.add. cbv zeta.
  destruct (datetime.validb (d + delta)) eqn:Hv.
  - apply datetime_facts.validb_valid in Hv. split.
    + by intros [= <-].
    + by intros [-> _].
  - split; [done|]. intros [-> Hr].
    apply datetime_facts.validb_valid in Hr. congruence.
Qed.

(** What a create that returned has done. *)
Lemma create_short_url_returned (data : UrlRequest.t) rq (now : datetime.t)
    w w1 w2 sc (resp : UrlResponse.t) :
  shortcode_or_generate data w = (Returned sc, w1) →
  create_short_url data rq now w = (Returned resp, w2) →
  let expiry := now + UrlRequest.validity data * datetime.US_PER_MINUTE in
  (sc ∉ dom (urls w))
  ∧ datetime.valid expiry
  ∧ resp = {| UrlResponse.shortLink :=
                pystring.rstrip "/" (Request.base_url rq) +:+ "/" +:+ sc;
              UrlResponse.expiry := datetime.isoformat expiry |}
  ∧ w2 = {| urls := <[sc := {| Entry.url := UrlRequest.url data;
                               Entry.expiry := expiry;
                               Entry.clicks := [] |}]> (urls w);
            rng := rng w1 |}.
Proof.
  intros Hsc Hc expiry.
  destruct (shortcode_or_generate_urls _ _ _ _ Hsc) as [Hu _].
  rewrite (create_short_url_eq _ _ _ _ _ _ Hsc), Hu in Hc.
  case_decide as Hin; [done|].
  destruct (datetime.timedelta_minutes _) as [delta|] eqn:Hd; [|done].
  apply timedelta_minutes_some in Hd as ->.
  destruct (datetime.add _ _) as [x|] eqn:Ha; [|done].
  apply add_some in Ha as [-> Hv].
  injection Hc as <- <-. done.
Qed.

(** A create with a fresh shortcode and a representable expiry returns. *)
Lemma create_short_url_accepts (data : UrlRequest.t) rq (now : datetime.t)
    w w1 sc :
  shortcode_or_generate data w = (Returned sc, w1) →
  sc ∉ dom (urls w) →
  datetime.valid now →
  datetime.valid (now + UrlRequest.validity data * datetime.US_PER_MINUTE) →
  ∃ resp w2, create_short_url data rq now w = (Returned resp, w2).
Proof.
  intros Hsc Hin Hnow Hv.
  destruct (shortcode_or_generate_urls _ _ _ _ Hsc) as [Hu _].
  rewrite (create_short_url_eq _ _ _ _ _ _ Hsc), Hu.
  rewrite decide_False by done.
  rewrite (timedelta_minutes_ok now) by done.
  unfold datetime.add. cbv zeta.
  rewrite (proj2 (datetime_facts.validb_valid _) Hv). by eexists _, _.
Qed.

End create_support.




(** C7, amended.  When the request gives a non-empty shortcode, that
    string itself is the shortcode of the create: no code is generated,
    the registry is searched for that string, and on success it is the
    key stored and the last segment of the returned link. *)
Theorem create_given_shortcode_verbatim (data : UrlRequest.t) (rq : Request.t)
    (now : datetime.t) (w : World) (s : string) :
  UrlRequest.shortcode data = Some s →
  s ≠ EmptyString →
  shortcode_or_generate data w = (Returned s, w)
  ∧ (s ∈ dom (urls w) →
     create_short_url data rq now w
     = (Raised (HTTPException 400 "Shortcode already exists"), w))
  ∧ ∀ resp w',
      create_short_url data rq now w = (Returned resp, w') →
      (s ∉ dom (urls w))
      ∧ UrlResponse.shortLink resp
        = pystring.rstrip "/" (Request.base_url rq) +:+ "/" +:+ s
      ∧ dom (urls w') = {[ s ]} ∪ dom (urls w)
      ∧ (∃ e, urls w' = <[s := e]> (urls w)
              ∧ Entry.url e = UrlRequest.url data)
      ∧ rng w' = rng w.
Proof.
  intros Hs Hne.
  pose proof (shortcode_or_generate_given data w s Hs Hne) as Hsc.
  split_and!; [done| |].
  - intros Hin. rewrite (create_short_url_eq _ _ _ _ _ _ Hsc).
    by rewrite decide_True.
  - intros resp w' Hc.
    destruct (create_short_url_returned _ _ _ _ _ _ _ _ Hsc Hc)
      as (Hin & _ & -> & ->).
    cbn [urls rng UrlResponse.shortLink].
    split_and!; [done|done|by rewrite dom_insert_L| |done].
    by eexists.
Qed.

Lemma create_given_shortcode_verbatim_witness :
  UrlRequest.shortcode data_expired = Some "old"%string
  ∧ "old"%string ≠ EmptyString
  ∧ shortcode_or_generate data_expired (initial g0)
    = (Returned "old"%string, initial g0).
Proof.
  assert (Hne : "old"%string ≠ EmptyString) by discriminate.
  split; [reflexivity|]. split; [exact Hne|].
  apply (create_given_shortcode_verbatim data_expired rq0 t0 (initial g0) "old"
           eq_refl Hne).
Defined.

(** C7 as stated fails for the empty string: it is given, yet the code
    that is stored and returned is a generated one. *)
Lemma create_empty_shortcode_not_verbatim :
  UrlRequest.shortcode data_empty = Some EmptyString
  ∧ ∃ w',
      create_short_url data_empty rq0 t0 (initial g0)
      = (Returned {| UrlResponse.shortLink := "http://127.0.0.1:8000/dkryF";
                     UrlResponse.expiry := "2024-01-01T01:00:00" |}, w')
      ∧ urls w' !! EmptyString = None
      ∧ is_Some (urls w' !! "dkryF"%string).
Proof.
  split; [reflexivity|].
  eexists. split; [reflexivity|]. split; [reflexivity|].
  eexists. reflexivity.
Qed.

Section alphabet_facts.
Lemma alphabet_length : length alphabet = 62%nat.
Proof. reflexivity. Qed.

Lemma alphabet_NoDup : NoDup alphabet.
Proof. apply (bool_decide_unpack _). vm_compute. exact I. Qed.

(** The population is exactly A–Z, a–z and 0–9. *)
Lemma alphabet_is_alnum (c : ascii) :
  existsb (Ascii.eqb c) alphabet = is_alnum c.
Proof. destruct c as [[] [] [] [] [] [] [] []]; vm_compute; reflexivity. Qed.

Lemma elem_of_alphabet (c : ascii) : c ∈ alphabet ↔ is_alnum c = true.
Proof.
  rewrite <- alphabet_is_alnum, existsb_exists. split.
  - intros Hin. exists c. split; [by apply list_elem_of_In|apply Ascii.eqb_refl].
  - intros (x & Hin & ->%Ascii.eqb_eq). by apply list_elem_of_In.
Qed.

Lemma length_join (cs : list ascii) :
  String.length (pystring.join cs) = length cs.
Proof.
  unfold pystring.join.
  induction cs as [|c cs IH]; cbn [string_of_list_ascii String.length length];
    [done|]. by rewrite IH.
Qed.

Lemma list_of_join (cs : list ascii) :
  list_ascii_of_string (pystring.join cs) = cs.
Proof. apply list_ascii_of_string_of_list_ascii. Qed.
End alphabet_facts.

(** C8.  A create without a shortcode calls [generate_shortcode] once:
    the code is five characters, each one of the 62 symbols A–Z, a–z,
    0–9, and the generator has been asked for five numbers.  If that
    code is already a key, the create raises the same 400 error as for a
    given duplicate, with the generator five draws on and the registry
    untouched: there is no second draw. *)
Theorem create_generated_shortcode (data : UrlRequest.t) (rq : Request.t)
    (now : datetime.t) (w : World) :
  UrlRequest.shortcode data = None →
  ∃ code g',
    shortcode_or_generate data w
    = (Returned code, {| urls := urls w; rng := g' |})
    ∧ generate_shortcode 5 w
      = (Returned code, {| urls := urls w; rng := g' |})
    ∧ String.length code = 5%nat
    ∧ Forall (λ c, c ∈ alphabet ∧ is_alnum c = true) (list_ascii_of_string code)
    ∧ length alphabet = 62%nat ∧ NoDup alphabet
    ∧ random.pos g' = (random.pos (rng w) + 5)%nat
    ∧ random.draws g' = random.draws (rng w)
    ∧ (code ∈ dom (urls w) →
       create_short_url data rq now w
       = (Raised (HTTPException 400 "Shortcode already exists"),
          {| urls := urls w; rng := g' |})).
Proof.
  intros Hnone.
  destruct (generate_shortcode_spec 5 w) as (cs & g' & Hc & Hg).
  destruct (choices_spec alphabet 5 (rng w))
    as (cs' & g'' & Hc' & Hlen & Hd & Hp & Hin).
  rewrite Hc in Hc'. injection Hc' as <- <-.
  assert (Hsc : shortcode_or_generate data w
                = (Returned (pystring.join cs), {| urls := urls w; rng := g' |})).
  { rewrite shortcode_or_generate_falsy by auto. exact Hg. }
  exists (pystring.join cs), g'.
  split_and!; [done|done|by rewrite length_join| |reflexivity
              |apply alphabet_NoDup|done|done|].
  - rewrite list_of_join.
    eapply Forall_impl; [apply Hin; discriminate|].
    intros c Hc'. split; [done|by apply elem_of_alphabet].
  - intros Hdup. rewrite (create_short_url_eq _ _ _ _ _ _ Hsc).
    cbn [urls]. by rewrite decide_True.
Qed.

Lemma create_generated_shortcode_witness :
  UrlRequest.shortcode data_none = None
  ∧ ∃ code g',
      shortcode_or_generate data_none w_taken
      = (Returned code, {| urls := urls w_taken; rng := g' |})
      ∧ String.length code = 5%nat.
Proof.
  split; [reflexivity|].
  destruct (create_generated_shortcode data_none rq0 t0 w_taken eq_refl)
    as (code & g' & Hsc & _ & Hlen & _).
  exists code, g'. split; [exact Hsc|exact Hlen].
Defined.

(** C9.  Over every sequence of create, redirect and stats requests, a
    shortcode that is stored stays stored with the same record: the same
    target, the same expiry, and a click list that starts with the
    clicks it had, none removed or changed. *)
Theorem registry_invariants (cs : list call) (w w' : World)
    (log : list (call * reply)) (sc : string) (e : Entry.t) :
  run cs w = (log, w') →
  urls w !! sc = Some e →
  ∃ e', urls w' !! sc = Some e'
        ∧ Entry.url e' = Entry.url e
        ∧ Entry.expiry e' = Entry.expiry e
        ∧ ∃ more, Entry.clicks e' = Entry.clicks e ++ more.
Proof.
  intros Hrun He.
  destruct (run_grows cs w log w' sc e Hrun He) as (e' & He' & Hu & Hx & Hc).
  exists e'. by split_and!.
Qed.

Lemma registry_invariants_witness :
  run calls0 w0 = (log0, w0')
  ∧ urls w0 !! "abc123"%string = Some link0
  ∧ ∃ e', urls w0' !! "abc123"%string = Some e'
          ∧ Entry.url e' = Entry.url link0
          ∧ Entry.expiry e' = Entry.expiry link0
          ∧ ∃ more, Entry.clicks e' = Entry.clicks link0 ++ more.
Proof.
  split; [reflexivity|]. split; [reflexivity|].
  apply (registry_invariants calls0 w0 w0' log0 "abc123" link0); reflexivity.
Defined.

(** C10.  A create whose shortcode is the empty string does exactly what
    the same create without a shortcode does: a five-character code is
    generated, and that code is the one looked up in the registry (the
    400 error when it is a key), stored as the key of the new record and
    put in the returned link.  No request ever makes the empty string a
    key. *)
Theorem create_empty_shortcode_generates (target : string) (validity : Z)
    (rq : Request.t) (now : datetime.t) (w : World) :
  create_short_url {| UrlRequest.url := target;
                      UrlRequest.validity := validity;
                      UrlRequest.shortcode := Some EmptyString |} rq now w
  = create_short_url {| UrlRequest.url := target;
                        UrlRequest.validity := validity;
                        UrlRequest.shortcode := None |} rq now w
  ∧ (∃ code g',
       shortcode_or_generate {| UrlRequest.url := target;
                                UrlRequest.validity := validity;
                                UrlRequest.shortcode := Some EmptyString |} w
       = (Returned code, {| urls := urls w; rng := g' |})
       ∧ generate_shortcode 5 w
         = (Returned code, {| urls := urls w; rng := g' |})
       ∧ String.length code = 5%nat
       ∧ (code ∈ dom (urls w) →
          create_short_url {| UrlRequest.url := target;
                              UrlRequest.validity := validity;
                              UrlRequest.shortcode := Some EmptyString |} rq now w
          = (Raised (HTTPException 400 "Shortcode already exists"),
             {| urls := urls w; rng := g' |}))
       ∧ (∀ resp w',
            create_short_url {| UrlRequest.url := target;
                                UrlRequest.validity := validity;
                                UrlRequest.shortcode := Some EmptyString |} rq now w
            = (Returned resp, w') →
            (code ∉ dom (urls w))
            ∧ resp
              = {| UrlResponse.shortLink :=
                     pystring.rstrip "/" (Request.base_url rq) +:+ "/" +:+ code;
                   UrlResponse.expiry :=
                     datetime.isoformat (now + validity * datetime.US_PER_MINUTE) |}
            ∧ w' = {| urls :=
                        <[code := {| Entry.url := target;
                                     Entry.expiry :=
                                       now + validity * datetime.US_PER_MINUTE;
                                     Entry.clicks := [] |}]> (urls w);
                      rng := g' |})
       ∧ (code ∉ dom (urls w) →
          datetime.valid now →
          datetime.valid (now + validity * datetime.US_PER_MINUTE) →
          ∃ resp w',
            create_short_url {| UrlRequest.url := target;
                                UrlRequest.validity := validity;
                                UrlRequest.shortcode := Some EmptyString |} rq now w
            = (Returned resp, w')))
  ∧ (∀ r w',
       create_short_url {| UrlRequest.url := target;
                           UrlRequest.validity := validity;
                           UrlRequest.shortcode := Some EmptyString |} rq now w
       = (r, w') →
       urls w !! EmptyString = None → urls w' !! EmptyString = None)
  ∧ (∀ g cs log w',
       run cs (initial g) = (log, w') → urls w' !! EmptyString = None).
Proof.
  split_and!.
  - reflexivity.
  - destruct (generate_shortcode_spec 5 w) as (cs & g' & Hc & Hg).
    destruct (choices_spec alphabet 5 (rng w)) as (cs' & g'' & Hc' & Hlen & _).
    rewrite Hc in Hc'. injection Hc' as <- <-.
    set (data := {| UrlRequest.url := target; UrlRequest.validity := validity;
                    UrlRequest.shortcode := Some EmptyString |}).
    assert (Hsc : shortcode_or_generate data w
                  = (Returned (pystring.join cs), {| urls := urls w; rng := g' |})).
    { rewrite shortcode_or_generate_falsy by auto. exact Hg. }
    exists (pystring.join cs), g'.
    split_and!; [exact Hsc|exact Hg|by rewrite length_join| | |].
    + intros Hin. rewrite (create_short_url_eq _ _ _ _ _ _ Hsc). cbn [urls].
      by rewrite decide_True.
    + intros resp w' Hcreate.
      destruct (create_short_url_returned _ _ _ _ _ _ _ _ Hsc Hcreate)
        as (Hin & _ & -> & ->).
      by split_and!.
    + intros Hin Hnow Hv.
      by apply (create_short_url_accepts data rq now w _ _ Hsc).
  - intros r w' Hc Hn.
    apply (handle_no_empty_key
             (CallCreate (UrlRequest.mkBody target (Some validity) (Some EmptyString))
                rq now) w (ReplyCreate r) w'); [|done].
    unfold handle, UrlRequest.of_body, default.
    cbn [UrlRequest.body_url UrlRequest.body_validity
         UrlRequest.body_shortcode from_option id].
    by rewrite Hc.
  - intros g cs log w' Hrun.
    by apply (run_no_empty_key cs (initial g) log w' Hrun).
Qed.

Lemma create_empty_shortcode_generates_witness :
  urls (initial g0) !! EmptyString = None
  ∧ create_short_url data_empty rq0 t0 (initial g0)
    = (Returned {| UrlResponse.shortLink := "http://127.0.0.1:8000/dkryF";
                   UrlResponse.expiry := "2024-01-01T01:00:00" |},
       (create_short_url data_empty rq0 t0 (initial g0)).2)
  ∧ urls (create_short_url data_empty rq0 t0 (initial g0)).2 !! "dkryF"%string
    = Some {| Entry.url := "https://a.com";
              Entry.expiry := t0 + 30 * datetime.US_PER_MINUTE;
              Entry.clicks := [] |}
  ∧ urls (create_short_url data_empty rq0 t0 (initial g0)).2 !! EmptyString = None.
Proof.
  assert (Hc : create_short_url data_empty rq0 t0 (initial g0)
               = (Returned {| UrlResponse.shortLink := "http://127.0.0.1:8000/dkryF";
                              UrlResponse.expiry := "2024-01-01T01:00:00" |},
                  (create_short_url data_empty rq0 t0 (initial g0)).2))
    by reflexivity.
  destruct (create_empty_shortcode_generates "https://a.com" 30 rq0 t0 (initial g0))
    as (_ & (code & g' & _ & Hgen & _ & _ & Hret & _) & Hkey & _).
  assert (Hg : generate_shortcode 5 (initial g0)
               = (Returned "dkryF"%string, (generate_shortcode 5 (initial g0)).2))
    by reflexivity.
  rewrite Hg in Hgen. injection Hgen as <- _.
  destruct (Hret _ _ Hc) as (_ & _ & Hw').
  split; [reflexivity|]. split; [exact Hc|]. split.
  - rewrite Hw'. cbn [urls]. apply lookup_insert_eq.
  - apply (Hkey _ _ Hc). reflexivity.
Defined.

(** ** The scenarios of the service, run on the model *)

(** Create without a shortcode, then stats, redirect, stats. *)
Example scenario_generated :
  map snd
    (run [ CallCreate (UrlRequest.mkBody "https://example.com" (Some 30) None) rq0 t0;
           CallStats "dkryF";
           CallRedirect "dkryF" rq0 (t0 + 5) (t0 + 6);
           CallStats "dkryF" ] (initial g0)).1
  = [ ReplyCreate
        (Returned {| UrlResponse.shortLink := "http://127.0.0.1:8000/dkryF";
                     UrlResponse.expiry := "2024-01-01T01:00:00" |});
      ReplyStats
        (Returned {| StatsResponse.url := "https://example.com";
                     StatsResponse.expiry := "2024-01-01T01:00:00";
                     StatsResponse.total_clicks := 0;
                     StatsResponse.click_data := [] |});
      ReplyRedirect
        (Returned {| RedirectResponse.redirect_to := "https://example.com" |});
      ReplyStats
        (Returned {| StatsResponse.url := "https://example.com";
                     StatsResponse.expiry := "2024-01-01T01:00:00";
                     StatsResponse.total_clicks := 1;
                     StatsResponse.click_data :=
                       [ {| Click.timestamp := "2024-01-01T00:30:00.000006";
                            Click.referrer := "http://ref.example/";
                            Click.ip := "10.0.0.1" |} ] |}) ].
Proof. vm_compute. reflexivity. Qed.

(** Create with validity -1, then redirect. *)
Example scenario_expired :
  map snd
    (run [ CallCreate (UrlRequest.mkBody "https://a.com" (Some (-1)) None) rq1 t0;
           CallRedirect "dkryF" rq1 t0 t0 ] (initial g0)).1
  = [ ReplyCreate
        (Returned {| UrlResponse.shortLink := "http://127.0.0.1:8000/dkryF";
                     UrlResponse.expiry := "2024-01-01T00:29:00" |});
      ReplyRedirect (Raised (HTTPException 410 "Link expired")) ].
Proof. vm_compute. reflexivity. Qed.

(** Two creates with the shortcode "dup", then stats. *)
Example scenario_duplicate :
  map snd
    (run [ CallCreate (UrlRequest.mkBody "https://a.com" None (Some "dup"%string)) rq1 t0;
           CallCreate (UrlRequest.mkBody "https://b.com" None (Some "dup"%string)) rq1 (t0 + 9);
           CallStats "dup" ] (initial g0)).1
  = [ ReplyCreate
        (Returned {| UrlResponse.shortLink := "http://127.0.0.1:8000/dup";
                     UrlResponse.expiry := "2024-01-01T01:00:00" |});
      ReplyCreate (Raised (HTTPException 400 "Shortcode already exists"));
      ReplyStats
        (Returned {| StatsResponse.url := "https://a.com";
                     StatsResponse.expiry := "2024-01-01T01:00:00";
                     StatsResponse.total_clicks := 0;
                     StatsResponse.click_data := [] |}) ].
Proof. vm_compute. reflexivity. Qed.

(** ** Further properties of the handlers *)

Section more_support.
Implicit Types (w : World) (c : call) (r : reply) (sc : string).

(** One request, by the kind of call and of reply. *)
Lemma handle_create_inv (b : UrlRequest.body) (rq : Request.t)
    (now : datetime.t) w r w' :
  handle (CallCreate b rq now) w = (r, w') →
  ∃ sc w1 (o : outcome UrlResponse.t),
    shortcode_or_generate (UrlRequest.of_body b) w = (Returned sc, w1)
    ∧ urls w1 = urls w
    ∧ r = ReplyCreate o
    ∧ create_short_url (UrlRequest.of_body b) rq now w = (o, w')
    ∧ ((∃ e, o = Raised e ∧ w' = w1)
       ∨ (∃ resp, o = Returned resp
            ∧ urls w !! sc = None
            ∧ urls w' = <[sc := {| Entry.url := UrlRequest.body_url b;
                                   Entry.expiry :=
                                     now + UrlRequest.validity (UrlRequest.of_body b)
                                           * datetime.US_PER_MINUTE;
                                   Entry.clicks := [] |}]> (urls w)
            ∧ rng w' = rng w1
            ∧ UrlResponse.expiry resp
              = datetime.isoformat
                  (now + UrlRequest.validity (UrlRequest.of_body b)
                         * datetime.US_PER_MINUTE))).
Proof.
  cbn [handle].
  destruct (create_short_url (UrlRequest.of_body b) rq now w) as [o w2] eqn:Hc.
  intros [= <- <-].
  destruct (shortcode_or_generate_returns (UrlRequest.of_body b) w)
    as (sc & g' & Hsc & Hne).
  exists sc, {| urls := urls w; rng := g' |}, o.
  split_and!; [done..|].
  destruct o as [resp|e].
  - right. exists resp.
    destruct (create_short_url_returned _ _ _ _ _ _ _ _ Hsc Hc)
      as (Hin & _ & -> & ->).
    split_and!; [done|by apply not_elem_of_dom|done..].
  - left. exists e. split; [done|].
    rewrite (create_short_url_eq _ _ _ _ _ _ Hsc) in Hc.
    case_decide; [by injection Hc as _ <-|].
    destruct (datetime.timedelta_minutes _); [|by injection Hc as _ <-].
    destruct (datetime.add _ _); [done|by injection Hc as _ <-].
Qed.

Lemma handle_redirect_inv sc (rq : Request.t) (now now' : datetime.t) w r w' :
  handle (CallRedirect sc rq now now') w = (r, w') →
  (∃ e, r = ReplyRedirect (Raised e) ∧ w' = w)
  ∨ (∃ entry,
       urls w !! sc = Some entry
       ∧ r = ReplyRedirect
               (Returned {| RedirectResponse.redirect_to := Entry.url entry |})
       ∧ w' = {| urls := <[sc := with_click entry (click_of rq now')]> (urls w);
                 rng := rng w |}).
Proof.
  cbn [handle]. rewrite redirect_url_eq.
  destruct (urls w !! sc) as [entry|] eqn:He.
  - destruct (datetime.gt now (Entry.expiry entry)); intros [= <- <-].
    + left. by eexists.
    + right. by exists entry.
  - intros [= <- <-]. left. by eexists.
Qed.

Lemma handle_stats_inv sc w r w' :
  handle (CallStats sc) w = (r, w') → w' = w ∧ ∃ o, r = ReplyStats o.
Proof.
  cbn [handle]. rewrite stats_eq.
  destruct (urls w !! sc); intros [= <- <-]; split; by eauto.
Qed.
End more_support.

(** X1.  A request that is answered with an exception, whichever it is,
    has not changed the registry. *)
Theorem raising_request_keeps_registry (c : call) (w w' : World) (r : reply) :
  handle c w = (r, w') →
  reply_raised r = true →
  urls w' = urls w.
Proof.
  intros Hh Hr. destruct c as [b rq now | sc rq now now' | sc].
  - destruct (handle_create_inv _ _ _ _ _ _ Hh)
      as (sc & w1 & o & _ & Hu & -> & _ & [(e & -> & ->) | (resp & -> & _)]);
      [done|discriminate Hr].
  - destruct (handle_redirect_inv _ _ _ _ _ _ _ Hh)
      as [(e & -> & ->) | (entry & _ & -> & _)]; [done|discriminate Hr].
  - by destruct (handle_stats_inv _ _ _ _ Hh) as [-> _].
Qed.

Lemma raising_request_keeps_registry_witness :
  handle call_generated w_taken
  = (ReplyCreate (Raised (HTTPException 400 "Shortcode already exists")),
     (handle call_generated w_taken).2)
  ∧ reply_raised (ReplyCreate (Raised (HTTPException 400 "Shortcode already exists")))
    = true
  ∧ urls (handle call_generated w_taken).2 = urls w_taken.
Proof.
  assert (Hh : handle call_generated w_taken
               = (ReplyCreate (Raised (HTTPException 400 "Shortcode already exists")),
                  (handle call_generated w_taken).2)) by reflexivity.
  split; [exact Hh|]. split; [reflexivity|].
  apply (raising_request_keeps_registry _ _ _ _ Hh). reflexivity.
Defined.

(** X2.  The record stored under a shortcode is changed by no request
    other than a redirect of that very shortcode: creates, stats and
    redirects of other shortcodes leave it as it is. *)
Theorem only_own_redirect_changes_record (c : call) (w w' : World) (r : reply)
    (sc : string) (e : Entry.t) :
  handle c w = (r, w') →
  urls w !! sc = Some e →
  (∀ rq now now', c ≠ CallRedirect sc rq now now') →
  urls w' !! sc = Some e.
Proof.
  intros Hh He Hc. destruct c as [b rq now | sc' rq now now' | sc'].
  - destruct (handle_create_inv _ _ _ _ _ _ Hh)
      as (sc' & w1 & o & _ & Hu & _ & _
          & [(x & _ & ->) | (resp & _ & Hnone & -> & _)]).
    + by rewrite Hu.
    + rewrite lookup_insert_ne; [done|]. intros ->. congruence.
  - destruct (handle_redirect_inv _ _ _ _ _ _ _ Hh)
      as [(x & _ & ->) | (entry & _ & _ & ->)]; [done|].
    cbn [urls]. rewrite lookup_insert_ne; [done|].
    intros ->. by apply (Hc rq now now').
  - by destruct (handle_stats_inv _ _ _ _ Hh) as [-> _].
Qed.

Lemma only_own_redirect_changes_record_witness :
  handle call_other w0 = ((handle call_other w0).1, (handle call_other w0).2)
  ∧ urls w0 !! "abc123"%string = Some link0
  ∧ is_Some (urls (handle call_other w0).2 !! "other"%string)
  ∧ urls (handle call_other w0).2 !! "abc123"%string = Some link0.
Proof.
  split; [reflexivity|]. split; [reflexivity|].
  split; [eexists; reflexivity|].
  apply (only_own_redirect_changes_record call_other w0
           (handle call_other w0).2 (handle call_other w0).1 "abc123" link0);
    [reflexivity..|].
  intros rq now now'. discriminate.
Defined.

Section size_support.
Implicit Types (w : World) (c : call) (r : reply).

Lemma handle_size c w r w' :
  handle c w = (r, w') →
  size (urls w')
  = (size (urls w) + if is_successful_create (c, r) then 1 else 0)%nat
  ∧ dom (urls w) ⊆ dom (urls w').
Proof.
  intros Hh. destruct c as [b rq now | sc rq now now' | sc].
  - destruct (handle_create_inv _ _ _ _ _ _ Hh)
      as (sc & w1 & o & _ & Hu & -> & _
          & [(x & -> & ->) | (resp & -> & Hnone & -> & _)]).
    + rewrite Hu. cbn. split; [lia|done].
    + cbn. rewrite map_size_insert_None by done.
      split; [lia|]. rewrite dom_insert. set_solver.
  - destruct (handle_redirect_inv _ _ _ _ _ _ _ Hh)
      as [(x & -> & ->) | (entry & He & -> & ->)]; cbn.
    + split; [lia|done].
    + rewrite map_size_insert_Some by done. split; [lia|].
      rewrite dom_insert. set_solver.
  - destruct (handle_stats_inv _ _ _ _ Hh) as [-> [o ->]]. cbn.
    split; [lia|done].
Qed.
End size_support.

(** X3.  No request removes a shortcode, and the registry grows by one
    key for each create that returned and by none for anything else:
    after any requests its size is the size before plus the number of
    creates answered with a link. *)
Theorem registry_size_counts_creates (cs : list call) (w w' : World)
    (log : list (call * reply)) :
  run cs w = (log, w') →
  size (urls w')
  = (size (urls w) + length (List.filter is_successful_create log))%nat
  ∧ dom (urls w) ⊆ dom (urls w').
Proof.
  revert w log w'. induction cs as [|c cs IH]; intros w log w'; cbn [run].
  - intros [= <- <-]. cbn. split; [lia|done].
  - destruct (handle c w) as [r w1] eqn:Hh.
    destruct (run cs w1) as [log' w2] eqn:Hr.
    intros [= <- <-].
    destruct (handle_size _ _ _ _ Hh) as [Hs1 Hd1].
    destruct (IH _ _ _ Hr) as [Hs2 Hd2].
    split; [|by etrans].
    rewrite Hs2, Hs1. cbn [List.filter].
    destruct (is_successful_create (c, r)); cbn [length]; lia.
Qed.

Lemma registry_size_counts_creates_witness :
  run calls0 w0 = (log0, w0')
  ∧ size (urls w0') = (size (urls w0) + 0)%nat.
Proof.
  split; [reflexivity|].
  apply (registry_size_counts_creates calls0 w0 w0' log0). reflexivity.
Defined.

(** X4.  Create, then stats.  Right after a create has returned, stats
    of its shortcode returns the submitted target, the very expiry
    string the create answered with, a count of zero and an empty
    click list. *)
Theorem create_then_stats (data : UrlRequest.t) (rq : Request.t)
    (now : datetime.t) (w wg w1 : World) (sc : string) (resp : UrlResponse.t) :
  shortcode_or_generate data w = (Returned sc, wg) →
  create_short_url data rq now w = (Returned resp, w1) →
  stats sc w1
  = (Returned {| StatsResponse.url := UrlRequest.url data;
                 StatsResponse.expiry := UrlResponse.expiry resp;
                 StatsResponse.total_clicks := 0;
                 StatsResponse.click_data := [] |}, w1).
Proof.
  intros Hsc Hc.
  destruct (create_short_url_returned _ _ _ _ _ _ _ _ Hsc Hc)
    as (_ & _ & -> & ->).
  rewrite stats_eq. cbn [urls]. by rewrite lookup_insert_eq.
Qed.

Lemma create_then_stats_witness :
  shortcode_or_generate data_none (initial g0)
  = (Returned "dkryF"%string, (shortcode_or_generate data_none (initial g0)).2)
  ∧ create_short_url data_none rq0 t0 (initial g0)
    = (Returned {| UrlResponse.shortLink := "http://127.0.0.1:8000/dkryF";
                   UrlResponse.expiry := "2024-01-01T01:00:00" |},
       (create_short_url data_none rq0 t0 (initial g0)).2)
  ∧ stats "dkryF" (create_short_url data_none rq0 t0 (initial g0)).2
    = (Returned {| StatsResponse.url := "https://a.com";
                   StatsResponse.expiry := "2024-01-01T01:00:00";
                   StatsResponse.total_clicks := 0;
                   StatsResponse.click_data := [] |},
       (create_short_url data_none rq0 t0 (initial g0)).2).
Proof.
  assert (Hsc : shortcode_or_generate data_none (initial g0)
                = (Returned "dkryF"%string,
                   (shortcode_or_generate data_none (initial g0)).2))
    by reflexivity.
  assert (Hc : create_short_url data_none rq0 t0 (initial g0)
               = (Returned {| UrlResponse.shortLink := "http://127.0.0.1:8000/dkryF";
                              UrlResponse.expiry := "2024-01-01T01:00:00" |},
                  (create_short_url data_none rq0 t0 (initial g0)).2))
    by reflexivity.
  split; [exact Hsc|]. split; [exact Hc|].
  apply (create_then_stats _ _ _ _ _ _ _ _ Hsc Hc).
Defined.

(** X5.  When the request carries a referer header, the click records
    the value of the first one, also when that value is empty;
    "unknown" is recorded only when there is no such header. *)
Theorem redirect_records_first_referer (sc : string) (rq : Request.t)
    (now now' : datetime.t) (w : World) (e : Entry.t)
    (pre post : list (string * string)) (v : string) :
  urls w !! sc = Some e →
  now <= Entry.expiry e →
  Request.headers rq = pre ++ ("referer"%string, v) :: post →
  (∀ v', ("referer"%string, v') ∉ pre) →
  ∃ w',
    redirect_url sc rq now now' w
    = (Returned {| RedirectResponse.redirect_to := Entry.url e |}, w')
    ∧ clicks_in w' sc
      = Entry.clicks e ++ [ {| Click.timestamp := datetime.isoformat now';
                               Click.referrer := v;
                               Click.ip := Request.client_host rq |} ].
Proof.
  intros He Hle Hh Hpre.
  rewrite (redirect_url_live _ _ _ _ _ _ He Hle). eexists. split; [done|].
  unfold clicks_in. cbn [urls]. rewrite lookup_insert_eq.
  unfold with_click, click_of. cbn [Entry.clicks].
  by rewrite Hh, headers_get_first.
Qed.

Lemma redirect_records_first_referer_witness :
  urls w0 !! "abc123"%string = Some link0
  ∧ t0 <= Entry.expiry link0
  ∧ Request.headers rq2
    = [("host"%string, "h"%string)]
      ++ ("referer"%string, EmptyString) :: [("referer"%string, "http://second/"%string)]
  ∧ ∃ w',
      redirect_url "abc123" rq2 t0 t0 w0
      = (Returned {| RedirectResponse.redirect_to := "https://a.com" |}, w')
      ∧ clicks_in w' "abc123"
        = [ {| Click.timestamp := "2024-01-01T00:30:00";
               Click.referrer := EmptyString;
               Click.ip := "10.0.0.3" |} ].
Proof.
  assert (Hle : t0 <= Entry.expiry link0).
  { unfold link0, t0, datetime.US_PER_MINUTE, datetime.US_PER_SECOND.
    cbn [Entry.expiry]. lia. }
  split; [reflexivity|]. split; [exact Hle|]. split; [reflexivity|].
  apply (redirect_records_first_referer "abc123" rq2 t0 t0 w0 link0
           [("host"%string, "h"%string)]
           [("referer"%string, "http://second/"%string)] EmptyString
           eq_refl Hle eq_refl).
  intros v' Hin. apply list_elem_of_singleton in Hin. discriminate Hin.
Defined.

Section link_support.
Import string_facts.

Lemma rstrip_repeat (c : ascii) (s : string) (k : nat) :
  pystring.rstrip c (s +:+ repeat_char c k) = pystring.rstrip c s.
Proof.
  revert s. induction k as [|k IH]; intros s; cbn [repeat_char].
  - by rewrite app_nil_r.
  - rewrite app_snoc, IH. apply rstrip_snoc.
Qed.

(** What [rstrip] returns does not end with the stripped character, and
    the argument is that result followed by copies of the character. *)
Lemma rstrip_not_trailing (c : ascii) (s t : string) :
  pystring.rstrip c s ≠ t +:+ String c EmptyString.
Proof.
  revert t. induction s as [|a s IH]; intros t; cbn [pystring.rstrip].
  - destruct t; discriminate.
  - destruct (pystring.rstrip c s) as [|b r] eqn:Hr.
    + destruct (Ascii.eqb_spec a c) as [->|Hne].
      * destruct t; discriminate.
      * destruct t as [|x t]; [rewrite app_nil_l; congruence|].
        rewrite app_cons. destruct t; discriminate.
    + destruct t as [|x t]; [rewrite app_nil_l; discriminate|].
      rewrite app_cons. intros [= _ H]. by apply (IH t).
Qed.

Lemma rstrip_decompose (c : ascii) (s : string) :
  ∃ k, s = pystring.rstrip c s +:+ repeat_char c k.
Proof.
  induction s as [|a s [k IH]]; cbn [pystring.rstrip].
  - by exists 0%nat.
  - destruct (pystring.rstrip c s) as [|b r] eqn:Hr.
    + destruct (Ascii.eqb_spec a c) as [->|Hne].
      * exists (S k). rewrite app_nil_l in *. cbn [repeat_char]. by f_equal.
      * exists k. rewrite app_cons. by f_equal.
    + exists k. rewrite app_cons. by f_equal.
Qed.
End link_support.

(** X6.  The link a create returns is built from the base URL without
    any of its trailing slashes: the part before the final "/" and the
    shortcode does not end with a slash, the base URL is that part
    followed by slashes only, and base URLs that differ in the number of
    trailing slashes give the same link. *)
Theorem short_link_strips_trailing_slashes (data : UrlRequest.t)
    (rq : Request.t) (now : datetime.t) (w wg w1 : World) (sc : string)
    (resp : UrlResponse.t) :
  shortcode_or_generate data w = (Returned sc, wg) →
  create_short_url data rq now w = (Returned resp, w1) →
  ∃ host k,
    UrlResponse.shortLink resp = host +:+ "/" +:+ sc
    ∧ Request.base_url rq = host +:+ repeat_char "/" k
    ∧ (∀ t, host ≠ t +:+ "/")
    ∧ ∀ n,
        create_short_url data
          {| Request.base_url := host +:+ repeat_char "/" n;
             Request.headers := Request.headers rq;
             Request.client_host := Request.client_host rq |} now w
        = (Returned resp, w1).
Proof.
  intros Hsc Hc.
  destruct (rstrip_decompose "/" (Request.base_url rq)) as [k Hk].
  exists (pystring.rstrip "/" (Request.base_url rq)), k.
  pose proof (create_short_url_returned _ _ _ _ _ _ _ _ Hsc Hc)
    as (Hin & Hv & Hresp & Hw1).
  split_and!.
  - by rewrite Hresp.
  - exact Hk.
  - intros t. apply rstrip_not_trailing.
  - intros n. rewrite (create_short_url_eq _ _ _ _ _ _ Hsc) in Hc.
    rewrite (create_short_url_eq _ _ _ _ _ _ Hsc).
    cbn [Request.base_url]. rewrite rstrip_repeat.
    assert (Hidem : pystring.rstrip "/" (pystring.rstrip "/" (Request.base_url rq))
                    = pystring.rstrip "/" (Request.base_url rq)).
    { rewrite Hk at 2. by rewrite rstrip_repeat. }
    by rewrite Hidem.
Qed.

Lemma short_link_strips_trailing_slashes_witness :
  shortcode_or_generate data_none (initial g0)
  = (Returned "dkryF"%string, (shortcode_or_generate data_none (initial g0)).2)
  ∧ create_short_url data_none rq0 t0 (initial g0)
    = (Returned {| UrlResponse.shortLink := "http://127.0.0.1:8000/dkryF";
                   UrlResponse.expiry := "2024-01-01T01:00:00" |},
       (create_short_url data_none rq0 t0 (initial g0)).2)
  ∧ ∃ host k,
      "http://127.0.0.1:8000/dkryF"%string = host +:+ "/" +:+ "dkryF"
      ∧ Request.base_url rq0 = host +:+ repeat_char "/" k.
Proof.
  assert (Hsc : shortcode_or_generate data_none (initial g0)
                = (Returned "dkryF"%string,
                   (shortcode_or_generate data_none (initial g0)).2))
    by reflexivity.
  assert (Hc : create_short_url data_none rq0 t0 (initial g0)
               = (Returned {| UrlResponse.shortLink := "http://127.0.0.1:8000/dkryF";
                              UrlResponse.expiry := "2024-01-01T01:00:00" |},
                  (create_short_url data_none rq0 t0 (initial g0)).2))
    by reflexivity.
  split; [exact Hsc|]. split; [exact Hc|].
  destruct (short_link_strips_trailing_slashes _ _ _ _ _ _ _ _ Hsc Hc)
    as (host & k & Hlink & Hbase & _).
  exists host, k. split; [exact Hlink|exact Hbase].
Defined.

Section generator_support.

Lemma index_of_spec (c : ascii) (l : list ascii) (d : ascii) :
  c ∈ l → (index_of c l < length l)%nat ∧ nth (index_of c l) l d = c.
Proof.
  induction l as [|x l IH]; intros Hin; [by apply elem_of_nil in Hin|].
  cbn [index_of]. destruct (Ascii.eqb_spec x c) as [->|Hne].
  - cbn. split; [lia|done].
  - apply elem_of_cons in Hin as [->|Hin]; [done|].
    destruct (IH Hin) as [Hlt Hnth]. cbn. split; [lia|done].
Qed.

(** When the coming draws are the indices of the characters of [cs],
    [choices] returns [cs]. *)
Lemma choices_follow (cs : list ascii) :
  ∀ g : random.state,
    Forall (λ c, c ∈ alphabet) cs →
    (∀ i, (i < length cs)%nat →
          random.draws g (random.pos g + i)
          = index_of (nth i cs "000"%char) alphabet) →
    random.choices alphabet (length cs) g
    = (cs, {| random.draws := random.draws g;
              random.pos := random.pos g + length cs |}).
Proof.
  induction cs as [|c cs IH]; intros g Hall Hd.
  - cbn. destruct g as [d p]. cbn. by rewrite Nat.add_0_r.
  - apply Forall_cons in Hall as [Hc Hall].
    cbn [length random.choices random.index_below].
    destruct (index_of_spec c alphabet "000"%char Hc) as [Hlt Hnth].
    pose proof (Hd 0%nat) as H0. cbn [nth length] in H0.
    rewrite Nat.add_0_r in H0. rewrite H0 by lia.
    rewrite Nat.mod_small by exact Hlt.
    rewrite (IH {| random.draws := random.draws g; random.pos := S (random.pos g) |}).
    + rewrite Hnth. cbn [random.draws random.pos]. f_equal. f_equal. lia.
    + exact Hall.
    + intros i Hi. cbn [random.draws random.pos].
      replace (S (random.pos g) + i)%nat with (random.pos g + S i)%nat by lia.
      rewrite Hd by (cbn [length]; lia). done.
Qed.

(** Equal results of [choices] come from equal indices. *)
Lemma choices_inj (k : nat) :
  ∀ (g1 g2 g1' g2' : random.state) (cs : list ascii),
    random.choices alphabet k g1 = (cs, g1') →
    random.choices alphabet k g2 = (cs, g2') →
    ∀ i, (i < k)%nat →
      (random.draws g1 (random.pos g1 + i) mod 62
       = random.draws g2 (random.pos g2 + i) mod 62)%nat.
Proof.
  induction k as [|k IH]; intros g1 g2 g1' g2' cs H1 H2 i Hi; [lia|].
  cbn [random.choices random.index_below] in H1, H2.
  rewrite alphabet_length in H1, H2.
  destruct (random.choices alphabet k
              {| random.draws := random.draws g1; random.pos := S (random.pos g1) |})
    as [cs1 h1] eqn:E1.
  destruct (random.choices alphabet k
              {| random.draws := random.draws g2; random.pos := S (random.pos g2) |})
    as [cs2 h2] eqn:E2.
  injection H1 as <- <-. injection H2 as Hhd Htl _. subst cs2.
  destruct i as [|i].
  - rewrite !Nat.add_0_r.
    apply (proj1 (NoDup_nth alphabet "000"%char)).
    + apply NoDup_ListNoDup, alphabet_NoDup.
    + rewrite alphabet_length. by apply Nat.mod_upper_bound.
    + rewrite alphabet_length. by apply Nat.mod_upper_bound.
    + done.
  - pose proof (IH _ _ _ _ _ E1 E2 i ltac:(lia)) as Hi'.
    cbn [random.draws random.pos] in Hi'.
    replace (random.pos g1 + S i)%nat with (S (random.pos g1) + i)%nat by lia.
    replace (random.pos g2 + S i)%nat with (S (random.pos g2) + i)%nat by lia.
    exact Hi'.
Qed.

Lemma join_inj (cs1 cs2 : list ascii) :
  pystring.join cs1 = pystring.join cs2 → cs1 = cs2.
Proof.
  intros H. apply (f_equal list_ascii_of_string) in H.
  by rewrite !list_of_join in H.
Qed.
End generator_support.

(** X7.  Every string of five characters among A–Z, a–z, 0–9 is a code
    [generate_shortcode] can return; so a create without a shortcode can
    be refused as a duplicate of any stored shortcode of that form,
    given or generated. *)
Theorem every_code_can_be_generated (code : string) (u : gmap string Entry.t)
    (data : UrlRequest.t) (rq : Request.t) (now : datetime.t) :
  String.length code = 5%nat →
  Forall (λ c, is_alnum c = true) (list_ascii_of_string code) →
  ∃ g',
    generate_shortcode 5 {| urls := u; rng := generator_of code |}
    = (Returned code, {| urls := u; rng := g' |})
    ∧ (UrlRequest.shortcode data = None → code ∈ dom u →
       create_short_url data rq now {| urls := u; rng := generator_of code |}
       = (Raised (HTTPException 400 "Shortcode already exists"),
          {| urls := u; rng := g' |})).
Proof.
  intros Hlen Hall.
  set (cs := list_ascii_of_string code).
  assert (Hcs : length cs = 5%nat).
  { unfold cs. clear -Hlen. revert Hlen. generalize 5%nat.
    induction code as [|c code IH]; intros n; cbn; [done|].
    destruct n; [done|]. intros [= H]. f_equal. by apply IH. }
  assert (Hch : random.choices alphabet 5 (generator_of code)
                = (cs, {| random.draws := random.draws (generator_of code);
                          random.pos := 5 |})).
  { rewrite <- Hcs.
    rewrite (choices_follow cs (generator_of code)).
    - done.
    - eapply Forall_impl; [exact Hall|]. intros c Hc. by apply elem_of_alphabet.
    - intros i Hi. reflexivity. }
  assert (Hgen : generate_shortcode 5 {| urls := u; rng := generator_of code |}
                 = (Returned code,
                    {| urls := u;
                       rng := {| random.draws := random.draws (generator_of code);
                                 random.pos := 5 |} |})).
  { destruct (generate_shortcode_spec 5 {| urls := u; rng := generator_of code |})
      as (cs' & g' & Hc' & ->).
    cbn [rng] in Hc'. rewrite Hch in Hc'. injection Hc' as <- <-.
    unfold cs, pystring.join. by rewrite string_of_list_ascii_of_string. }
  eexists. split; [exact Hgen|].
  intros Hnone Hin.
  assert (Hsc : shortcode_or_generate data {| urls := u; rng := generator_of code |}
                = (Returned code,
                   {| urls := u;
                      rng := {| random.draws := random.draws (generator_of code);
                                random.pos := 5 |} |})).
  { rewrite shortcode_or_generate_falsy by auto. exact Hgen. }
  rewrite (create_short_url_eq _ _ _ _ _ _ Hsc). cbn [urls].
  by rewrite decide_True.
Qed.

Lemma every_code_can_be_generated_witness :
  String.length "abc12" = 5%nat
  ∧ Forall (λ c, is_alnum c = true) (list_ascii_of_string "abc12")
  ∧ ∃ g',
      generate_shortcode 5 {| urls := urls w0; rng := generator_of "abc12" |}
      = (Returned "abc12"%string, {| urls := urls w0; rng := g' |}).
Proof.
  assert (Hall : Forall (λ c, is_alnum c = true) (list_ascii_of_string "abc12"))
    by (repeat constructor).
  split; [reflexivity|]. split; [exact Hall|].
  destruct (every_code_can_be_generated "abc12" (urls w0) data_none rq0 t0
              eq_refl Hall) as (g' & Hgen & _).
  exists g'. exact Hgen.
Defined.

(** X8.  Two generated codes are the same string only when the five
    numbers drawn for them pick the same five positions of the
    62-character population. *)
Theorem equal_codes_need_equal_draws (w1 w2 w1' w2' : World) (code : string) :
  generate_shortcode 5 w1 = (Returned code, w1') →
  generate_shortcode 5 w2 = (Returned code, w2') →
  ∀ i, (i < 5)%nat →
    (random.draws (rng w1) (random.pos (rng w1) + i) mod 62
     = random.draws (rng w2) (random.pos (rng w2) + i) mod 62)%nat.
Proof.
  intros H1 H2.
  destruct (generate_shortcode_spec 5 w1) as (cs1 & g1 & Hc1 & Hg1).
  destruct (generate_shortcode_spec 5 w2) as (cs2 & g2 & Hc2 & Hg2).
  rewrite Hg1 in H1. rewrite Hg2 in H2.
  injection H1 as H1 _. injection H2 as H2 _.
  assert (cs2 = cs1) as -> by (apply join_inj; congruence).
  by apply (choices_inj 5 _ _ _ _ _ Hc1 Hc2).
Qed.

Lemma equal_codes_need_equal_draws_witness :
  generate_shortcode 5 (initial g0)
  = (Returned "dkryF"%string, (generate_shortcode 5 (initial g0)).2)
  ∧ generate_shortcode 5 w_taken
    = (Returned "dkryF"%string, (generate_shortcode 5 w_taken).2)
  ∧ (random.draws (rng (initial g0)) (random.pos (rng (initial g0)) + 4) mod 62
     = random.draws (rng w_taken) (random.pos (rng w_taken) + 4) mod 62)%nat.
Proof.
  split; [reflexivity|]. split; [reflexivity|].
  apply (equal_codes_need_equal_draws (initial g0) w_taken
           (generate_shortcode 5 (initial g0)).2
           (generate_shortcode 5 w_taken).2 "dkryF"); [reflexivity..|lia].
Defined.

(** X9.  Stats requests are invisible to everything else: leaving them
    out of a sequence of requests gives the same replies to the other
    requests and the same final registry and generator. *)
Theorem stats_calls_are_invisible (cs : list call) (w w' : World)
    (log : list (call * reply)) :
  run cs w = (log, w') →
  run (List.filter (λ c, negb (is_stats_call c)) cs) w
  = (List.filter (λ cr, negb (is_stats_call cr.1)) log, w').
Proof.
  revert w log w'. induction cs as [|c cs IH]; intros w log w'; cbn [run].
  - by intros [= <- <-].
  - destruct (handle c w) as [r w1] eqn:Hh.
    destruct (run cs w1) as [log' w2] eqn:Hr.
    intros [= <- <-]. cbn [List.filter fst].
    destruct c as [b rq now | sc rq now now' | sc]; cbn [is_stats_call negb].
    + cbn [run]. by rewrite Hh, (IH _ _ _ Hr).
    + cbn [run]. by rewrite Hh, (IH _ _ _ Hr).
    + destruct (handle_stats_inv _ _ _ _ Hh) as [-> _]. by apply IH.
Qed.

Lemma stats_calls_are_invisible_witness :
  run calls0 w0 = (log0, w0')
  ∧ (run (List.filter (λ c, negb (is_stats_call c)) calls0) w0).2 = w0'.
Proof.
  split; [reflexivity|].
  rewrite (stats_calls_are_invisible calls0 w0 w0' log0 eq_refl). reflexivity.
Defined.

(** ** The logging variant against the plain one *)

Section backend_support.
Implicit Types (w : World) (l : list string) (c : call) (r : reply).

Lemma backend_given_or_generated (data : UrlRequest.t) w l :
  Backend.given_or_generated data {| Backend.world := w; Backend.logs := l |}
  = let '(o, w1) := shortcode_or_generate data w in
    (o, {| Backend.world := w1; Backend.logs := l |}).
Proof.
  unfold Backend.given_or_generated, shortcode_or_generate,
    Backend.generate_shortcode, generate_shortcode, mbind, Backend.LM_bind,
    M_bind, Backend.draw, with_rng, mret, Backend.LM_ret, M_ret.
  cbn [Backend.world Backend.logs].
  destruct (UrlRequest.shortcode data) as [s|];
    [destruct (String.eqb s EmptyString)|];
    try reflexivity;
    by destruct (random.choices _ 5 (rng w)).
Qed.

Lemma backend_create_short_url (data : UrlRequest.t) (rq : Request.t)
    (now : datetime.t) w l :
  Backend.create_short_url data rq now {| Backend.world := w; Backend.logs := l |}
  = let '(o, w') := create_short_url data rq now w in
    (o, {| Backend.world := w';
           Backend.logs :=
             l ++ match o, shortcode_or_generate data w with
                  | Returned _, (Returned sc, _) =>
                      ["Short URL created: " +:+ sc +:+ " -> "
                       +:+ UrlRequest.url data]
                  | _, _ => []
                  end |}).
Proof.
  destruct (shortcode_or_generate_returns data w) as (sc & g' & Hsc & _).
  rewrite (create_short_url_eq _ _ _ _ _ _ Hsc).
  unfold Backend.create_short_url, mbind, Backend.LM_bind.
  rewrite backend_given_or_generated, Hsc.
  unfold Backend.read_urls. cbn [Backend.world Backend.logs urls rng].
  case_decide; [cbn; by rewrite app_nil_r|].
  destruct (datetime.timedelta_minutes _) as [delta|];
    [|cbn; by rewrite app_nil_r].
  cbn. destruct (datetime.add now delta) as [expiry|];
    cbn; [done|by rewrite app_nil_r].
Qed.

Lemma backend_redirect_url (sc : string) (rq : Request.t)
    (now now' : datetime.t) w l :
  Backend.redirect_url sc rq now now' {| Backend.world := w; Backend.logs := l |}
  = let '(o, w') := redirect_url sc rq now now' w in
    (o, {| Backend.world := w';
           Backend.logs :=
             l ++ match o with
                  | Returned resp =>
                      ["Redirect requested: " +:+ sc +:+ " -> "
                       +:+ RedirectResponse.redirect_to resp]
                  | Raised _ => []
                  end |}).
Proof.
  rewrite redirect_url_eq.
  unfold Backend.redirect_url, mbind, Backend.LM_bind, Backend.read_urls.
  cbn [Backend.world Backend.logs].
  destruct (urls w !! sc) as [e|]; [|cbn; by rewrite app_nil_r].
  destruct (datetime.gt now (Entry.expiry e)); cbn; [by rewrite app_nil_r|done].
Qed.

Lemma backend_stats (sc : string) w l :
  Backend.stats sc {| Backend.world := w; Backend.logs := l |}
  = let '(o, w') := stats sc w in
    (o, {| Backend.world := w'; Backend.logs := l |}).
Proof.
  rewrite stats_eq.
  unfold Backend.stats, mbind, Backend.LM_bind, Backend.read_urls.
  cbn [Backend.world Backend.logs].
  by destruct (urls w !! sc).
Qed.

(** One request of the logging variant, in terms of the plain one. *)
Lemma backend_handle c (s : Backend.State) :
  Backend.handle c s
  = let '(r, w') := handle c (Backend.world s) in
    (r, {| Backend.world := w';
           Backend.logs := Backend.logs s ++ logged c (Backend.world s) r |}).
Proof.
  destruct s as [w l]. cbn [Backend.world Backend.logs].
  destruct c as [b rq now | sc rq now now' | sc]; cbn [Backend.handle handle].
  - rewrite backend_create_short_url.
    destruct (create_short_url _ rq now w) as [o w'].
    unfold logged.
    destruct o; [|done].
    by destruct (shortcode_or_generate _ w) as [[] ?].
  - rewrite backend_redirect_url.
    destruct (redirect_url sc rq now now' w) as [o w']. by destruct o.
  - rewrite backend_stats.
    destruct (stats sc w) as [o w']. unfold logged.
    by rewrite app_nil_r.
Qed.
End backend_support.

Section backend_run_support.

Lemma backend_run (cs : list call) :
  ∀ (s : Backend.State),
    Backend.run cs s
    = let '(log, w') := run cs (Backend.world s) in
      (log, {| Backend.world := w';
               Backend.logs := Backend.logs s ++ run_logged cs (Backend.world s) |}).
Proof.
  induction cs as [|c cs IH]; intros s; cbn [Backend.run run run_logged].
  - destruct s as [w l]. cbn. by rewrite app_nil_r.
  - rewrite backend_handle.
    destruct (handle c (Backend.world s)) as [r w1].
    rewrite IH. cbn [Backend.world Backend.logs].
    destruct (run cs w1) as [log w2]. by rewrite app_assoc.
Qed.

Lemma length_logged (c : call) (w w' : World) (r : reply) :
  handle c w = (r, w') →
  length (logged c w r) = if is_answered_change (c, r) then 1%nat else 0%nat.
Proof.
  intros Hh. destruct c as [b rq now | sc rq now now' | sc].
  - destruct (handle_create_inv _ _ _ _ _ _ Hh)
      as (sc & w1 & o & Hsc & _ & -> & _ & [(e & -> & _) | (resp & -> & _)]).
    + reflexivity.
    + unfold logged. by rewrite Hsc.
  - destruct (handle_redirect_inv _ _ _ _ _ _ _ Hh)
      as [(e & -> & _) | (entry & _ & -> & _)]; reflexivity.
  - destruct (handle_stats_inv _ _ _ _ Hh) as [_ [o ->]]. by destruct o.
Qed.

Lemma length_run_logged (cs : list call) :
  ∀ (w w' : World) (log : list (call * reply)),
    run cs w = (log, w') →
    length (run_logged cs w) = length (List.filter is_answered_change log).
Proof.
  induction cs as [|c cs IH]; intros w w' log; cbn [run run_logged].
  - by intros [= <- <-].
  - destruct (handle c w) as [r w1] eqn:Hh.
    destruct (run cs w1) as [log' w2] eqn:Hr.
    intros [= <- <-]. rewrite length_app, (length_logged _ _ _ _ Hh), (IH _ _ _ Hr).
    cbn [List.filter]. by destruct (is_answered_change (c, r)).
Qed.
End backend_run_support.

(** X10.  Called with the same arguments (the validated request data,
    the request and the clock readings) on the same registry and
    generator, each handler of the logging variant returns or raises
    exactly what the handler of [main.py] does and leaves the same
    registry and generator, whatever the log holds.  The two request
    models, which decide what reaches [create_short_url], are not
    compared here. *)
Theorem backend_handlers_agree_with_main (data : UrlRequest.t)
    (rq : Request.t) (now now' : datetime.t) (sc : string)
    (s : Backend.State) :
  ((Backend.create_short_url data rq now s).1
   = (create_short_url data rq now (Backend.world s)).1
   ∧ Backend.world (Backend.create_short_url data rq now s).2
     = (create_short_url data rq now (Backend.world s)).2)
  ∧ ((Backend.redirect_url sc rq now now' s).1
     = (redirect_url sc rq now now' (Backend.world s)).1
     ∧ Backend.world (Backend.redirect_url sc rq now now' s).2
       = (redirect_url sc rq now now' (Backend.world s)).2)
  ∧ ((Backend.stats sc s).1 = (stats sc (Backend.world s)).1
     ∧ Backend.world (Backend.stats sc s).2 = (stats sc (Backend.world s)).2).
Proof.
  destruct s as [w l]. cbn [Backend.world]. split_and!.
  - rewrite backend_create_short_url. by destruct (create_short_url data rq now w).
  - rewrite backend_create_short_url. by destruct (create_short_url data rq now w).
  - rewrite backend_redirect_url. by destruct (redirect_url sc rq now now' w).
  - rewrite backend_redirect_url. by destruct (redirect_url sc rq now now' w).
  - rewrite backend_stats. by destruct (stats sc w).
  - rewrite backend_stats. by destruct (stats sc w).
Qed.

Lemma backend_handlers_agree_with_main_witness :
  (Backend.create_short_url data_none rq0 t0 s0).1
  = Returned {| UrlResponse.shortLink := "http://127.0.0.1:8000/dkryF";
                UrlResponse.expiry := "2024-01-01T01:00:00" |}
  ∧ Backend.world (Backend.create_short_url data_none rq0 t0 s0).2
    = (create_short_url data_none rq0 t0 w0).2.
Proof.
  destruct (backend_handlers_agree_with_main data_none rq0 t0 t0 "abc123" s0)
    as ((Hr & Hw) & _).
  split; [rewrite Hr; reflexivity|exact Hw].
Defined.

(** X11.  The logging variant only appends to its log, and appends
    exactly one message for each create and each redirect that returned,
    "Short URL created: code -> target" and "Redirect requested: code
    -> target", in the order served; requests that raise and stats
    requests write none. *)
Theorem backend_logs_each_success_once (cs : list call)
    (s s' : Backend.State) (log : list (call * reply)) :
  Backend.run cs s = (log, s') →
  Backend.logs s' = Backend.logs s ++ run_logged cs (Backend.world s)
  ∧ length (run_logged cs (Backend.world s))
    = length (List.filter is_answered_change log)
  ∧ ∀ c r s1,
      Backend.handle c s = (r, s1) →
      Backend.logs s1 = Backend.logs s ++ logged c (Backend.world s) r
      ∧ (reply_raised r = true ∨ is_stats_call c = true →
         Backend.logs s1 = Backend.logs s).
Proof.
  intros Hrun. pose proof Hrun as Hrun'. rewrite backend_run in Hrun'.
  destruct (run cs (Backend.world s)) as [log' w'] eqn:Hr.
  injection Hrun' as <- <-. cbn [Backend.logs].
  split_and!; [done|by apply (length_run_logged cs _ w')|].
  intros c r s1 Hh. rewrite backend_handle in Hh.
  destruct (handle c (Backend.world s)) as [r' w1] eqn:Hh'.
  injection Hh as <- <-. cbn [Backend.logs]. split; [done|].
  intros Hquiet. pose proof (length_logged _ _ _ _ Hh') as Hlen.
  unfold is_answered_change in Hlen. cbn [fst snd] in Hlen.
  destruct Hquiet as [Hq | Hq]; rewrite Hq in Hlen; cbn in Hlen;
    rewrite ?andb_false_r in Hlen;
    destruct (logged c (Backend.world s) r'); try discriminate Hlen;
    by rewrite app_nil_r.
Qed.

Lemma backend_logs_each_success_once_witness :
  Backend.run calls0 s0 = (log0, (Backend.run calls0 s0).2)
  ∧ Backend.logs (Backend.run calls0 s0).2
    = [ "Redirect requested: abc123 -> https://a.com"%string;
        "Redirect requested: abc123 -> https://a.com"%string ].
Proof.
  split; [reflexivity|].
  rewrite (proj1 (backend_logs_each_success_once calls0 s0
                    (Backend.run calls0 s0).2 log0 eq_refl)).
  reflexivity.
Defined.

(** X12.  The middleware [log_requests] passes the response of the inner
    application through unchanged and touches nothing but the log: it
    writes "Incoming request: METHOD URL" before the inner application
    runs and, when that returns, "Response status: " followed by the
    decimal numeral of the status code; when the inner application
    raises, the exception passes through and no status line is written. *)
Theorem log_requests_brackets_inner_app {Resp : Type} (status_code : Resp → Z)
    (request : Backend.HttpRequest)
    (call_next : Backend.HttpRequest → Backend.LM Resp) (s : Backend.State) :
  let s1 := {| Backend.world := Backend.world s;
               Backend.logs :=
                 Backend.logs s
                 ++ ["Incoming request: " +:+ Backend.method request +:+ " "
                     +:+ Backend.url request] |} in
  (∀ response s2,
     call_next request s1 = (Returned response, s2) →
     Backend.log_requests status_code request call_next s
     = (Returned response,
        {| Backend.world := Backend.world s2;
           Backend.logs :=
             Backend.logs s2
             ++ ["Response status: " +:+ str_int (status_code response)] |})
     ∧ (0 <= status_code response →
        datetime.digits_value (str_int (status_code response))
        = status_code response))
  ∧ (∀ e s2,
       call_next request s1 = (Raised e, s2) →
       Backend.log_requests status_code request call_next s = (Raised e, s2)).
Proof.
  intros s1. split.
  - intros response s2 Hn. split.
    + unfold Backend.log_requests, mbind, Backend.LM_bind, Backend.logger_info.
      fold s1. by rewrite Hn.
    + intros Hpos. unfold str_int.
      destruct (Z.ltb_spec (status_code response) 0); [lia|].
      by apply datetime_facts.decimal_value.
  - intros e s2 Hn.
    unfold Backend.log_requests, mbind, Backend.LM_bind, Backend.logger_info.
    fold s1. by rewrite Hn.
Qed.

Lemma log_requests_brackets_inner_app_witness :
  Backend.log_requests (λ _ : StatsResponse.t, 200) get_stats_request
    (λ _, Backend.stats "abc123") s0
  = (Returned {| StatsResponse.url := "https://a.com";
                 StatsResponse.expiry := "2024-01-01T01:00:00";
                 StatsResponse.total_clicks := 0;
                 StatsResponse.click_data := [] |},
     {| Backend.world := w0;
        Backend.logs :=
          [ "Incoming request: GET http://127.0.0.1:8000/shorturls/abc123"%string;
            "Response status: 200"%string ] |}).
Proof.
  apply (proj1 (proj1 (log_requests_brackets_inner_app
                         (λ _ : StatsResponse.t, 200) get_stats_request
                         (λ _, Backend.stats "abc123") s0) _ _ eq_refl)).
Defined.

(** X13.  The validity window is closed on the right.  After a create
    at clock reading [now] has returned, and whatever requests follow, a
    redirect of its shortcode returns the target at every reading up to
    and including [now + validity] minutes, and is refused as expired at
    every reading after it, from one microsecond on. *)
Theorem validity_window_is_inclusive (data : UrlRequest.t) (rq : Request.t)
    (now : datetime.t) (w wg w1 : World) (sc : string) (resp : UrlResponse.t) :
  shortcode_or_generate data w = (Returned sc, wg) →
  create_short_url data rq now w = (Returned resp, w1) →
  ∀ cs log w2,
    run cs w1 = (log, w2) →
    ∀ rq2 (t t' : datetime.t),
      (t <= now + UrlRequest.validity data * datetime.US_PER_MINUTE →
       ∃ w3, redirect_url sc rq2 t t' w2
             = (Returned {| RedirectResponse.redirect_to := UrlRequest.url data |},
                w3))
      ∧ (now + UrlRequest.validity data * datetime.US_PER_MINUTE < t →
         redirect_url sc rq2 t t' w2
         = (Raised (HTTPException 410 "Link expired"), w2)).
Proof.
  intros Hsc Hc cs log w2 Hrun rq2 t t'.
  destruct (create_short_url_returned _ _ _ _ _ _ _ _ Hsc Hc)
    as (_ & _ & _ & ->).
  edestruct (run_grows cs) as (e' & He' & Hu & Hx & _);
    [exact Hrun|apply lookup_insert_eq|].
  cbn [Entry.url Entry.expiry] in Hu, Hx. split.
  - intros Ht.
    rewrite (redirect_url_live sc rq2 t t' w2 e' He') by lia.
    rewrite Hu. by eexists.
  - intros Ht. apply (redirect_url_expired sc rq2 t t' w2 e' He'). lia.
Qed.

Lemma validity_window_is_inclusive_witness :
  shortcode_or_generate data_none (initial g0)
  = (Returned "dkryF"%string, (shortcode_or_generate data_none (initial g0)).2)
  ∧ create_short_url data_none rq0 t0 (initial g0)
    = (Returned {| UrlResponse.shortLink := "http://127.0.0.1:8000/dkryF";
                   UrlResponse.expiry := "2024-01-01T01:00:00" |},
       (create_short_url data_none rq0 t0 (initial g0)).2)
  ∧ redirect_url "dkryF" rq1 (t0 + 30 * datetime.US_PER_MINUTE + 1) t0
      (create_short_url data_none rq0 t0 (initial g0)).2
    = (Raised (HTTPException 410 "Link expired"),
       (create_short_url data_none rq0 t0 (initial g0)).2).
Proof.
  assert (Hsc : shortcode_or_generate data_none (initial g0)
                = (Returned "dkryF"%string,
                   (shortcode_or_generate data_none (initial g0)).2))
    by reflexivity.
  assert (Hc : create_short_url data_none rq0 t0 (initial g0)
               = (Returned {| UrlResponse.shortLink := "http://127.0.0.1:8000/dkryF";
                              UrlResponse.expiry := "2024-01-01T01:00:00" |},
                  (create_short_url data_none rq0 t0 (initial g0)).2))
    by reflexivity.
  split; [exact Hsc|]. split; [exact Hc|].
  apply (proj2 (validity_window_is_inclusive _ _ _ _ _ _ _ _ Hsc Hc [] [] _
                  eq_refl rq1 (t0 + 30 * datetime.US_PER_MINUTE + 1) t0)).
  unfold data_none. cbn [UrlRequest.validity]. lia.
Defined.
